(** * The simxarm task base environment ([task/base.py])

    A shallow embedding of the class [Base] of
    [lerobot/common/envs/simxarm/simxarm/task/base.py] and the properties its
    specification states about it.

    Modelling choices, in the order the development uses them.

    - Floating-point scalars are modelled by exact rationals ([Q]): the
      properties below are about comparisons, [min]/[max] and the order in
      which buffers are read and written, not about rounding.
    - numpy arrays are mutable objects.  The ones the adapter creates or
      receives live in a store ([heap]) indexed by references ([loc]);
      [action.copy()] allocates, [action[:3]] is a view onto its base and
      [pos_ctrl[i] = v] writes through the view.
    - The physics engine, the mocap helper module, the renderer and the
      action space of the framework are external collaborators: they are the
      fields of a record [Physics] the development is parameterised by, and
      every call to them is logged in the [trace] of the world.
    - The hooks a concrete task supplies are the fields of a record [Task];
      [BaseTask] holds the ones [Base] itself defines.
    - Python exceptions are values of [exn]; a method is a function from
      worlds to a [result] and the world it leaves behind.
    - The file is a port in progress: some methods already go through
      [mj_forward(model, data)] and [mujoco_renderer], others still read
      [self.sim] and [self.viewer], attributes of the former framework class
      that nothing in this class assigns before it reads them.  Both are
      attributes an instance may lack; reading a missing one raises
      [AttributeError].  Likewise the data object may lack the method
      [set_joint_qpos] that [_env_setup] calls on it.

    The methods [_set_gripper] and [_env_setup] are not called by [step],
    [reset], [render] or [close]; they are embedded apart, after the class.
    [_viewer_setup] writes the camera of the framework's viewer, of which
    this development keeps the window only; it is left out. *)

From Stdlib Require Import QArith Qminmax ZArith Lia.
From stdpp Require Import gmap strings list fin_maps.

Local Open Scope Q_scope.

(** ** Python scalars *)

Module Py.

(** [x < y] on floats. *)
Definition ltb (x y : Q) : bool := negb (Qle_bool y x).

(** [x > y] on floats. *)
Definition gtb (x y : Q) : bool := ltb y x.

(** The builtin [min(a, b)]: the second argument wins only when it is
    strictly smaller. *)
Definition min (a b : Q) : Q := if ltb b a then b else a.

(** The builtin [max(a, b)]: the second argument wins only when it is
    strictly greater. *)
Definition max (a b : Q) : Q := if gtb b a then b else a.

End Py.

(** ** Exceptions and results *)

Inductive exn : Type :=
| AssertionError        (* a failed [assert] *)
| NotImplementedError
| IndexError
| ValueError            (* numpy shape mismatch *)
| ZeroDivisionError
| AttributeError        (* a missing attribute or method *)
| BadReference.         (* a reference outside the store; no Python program
                           can build one, the store model must name it *)

Inductive result (A : Type) : Type :=
| Ok (a : A)
| Raise (e : exn).
Arguments Ok {A} a.
Arguments Raise {A} e.

(** Values a hook or a method hands back. *)
Inductive pyval : Type :=
| VNone
| VBool (b : bool)
| VFloat (x : Q)
| VArray (xs : list Q)
| VExc (e : exn).       (* an exception instance used as a plain value *)

(** ** The state-and-exception monad of a method body

    The world survives an exception: whatever was written before the
    [raise] stays written. *)

Definition M (W A : Type) : Type := W -> result A * W.

Definition ret {W A} (a : A) : M W A := fun w => (Ok a, w).

Definition raise {W A} (e : exn) : M W A := fun w => (Raise e, w).

Definition bind {W A B} (m : M W A) (k : A -> M W B) : M W B :=
  fun w =>
    match m w with
    | (Ok a, w') => k a w'
    | (Raise e, w') => (Raise e, w')
    end.

Notation "x <- m ;; k" := (bind m (fun x => k))
  (at level 100, m at next level, right associativity).
Notation "m ;;; k" := (bind m (fun _ => k))
  (at level 100, right associativity).

(** [assert cond]. *)
Definition assert {W} (cond : bool) : M W unit :=
  if cond then ret tt else raise AssertionError.

(** [for _ in range(n): body]. *)
Fixpoint for_range {W} (n : nat) (body : M W unit) : M W unit :=
  match n with
  | O => ret tt
  | S n' => body ;;; for_range n' body
  end.

(** ** numpy arrays *)

Definition loc := positive.

Record ndarray : Type := NDArray { shape : list nat; buf : list Q }.

(** [np.array([x0, ..., xn])]: a one-dimensional array. *)
Definition array1 (xs : list Q) : ndarray := NDArray [length xs] xs.

(** A one-dimensional view [base[off : off + len]]. *)
Record view : Type := View { base : loc; off : nat; len : nat }.

(** The buffer of an array numpy accepts as one-dimensional (what
    [np.concatenate] demands of every operand once one of them is). *)
Definition as_1d (a : ndarray) : result (list Q) :=
  if bool_decide (shape a = [length (buf a)]) then Ok (buf a) else Raise ValueError.

(** [dst[:] = src] on one-dimensional buffers: [src] must have the length of
    [dst] or be broadcast from a single element. *)
Definition assign_all (dst src : list Q) : result (list Q) :=
  if (length src =? length dst)%nat then Ok src
  else match src with
       | [x] => Ok (replicate (length dst) x)
       | _ => Raise ValueError
       end.

(** A position reported by the engine: a row of its [nsite x 3] buffer. *)
Record vec3 : Type := Vec3 { vx : Q; vy : Q; vz : Q }.

Definition vec3_to_list (p : vec3) : list Q := [vx p; vy p; vz p].

(** A viewer of the framework: all the adapter uses of it is its window. *)
Record Viewer : Type := mkViewer { window : positive }.

(** The simulation wrapper of the former framework class, [self.sim], where
    an instance has one: a handle on the model and the data of the world. *)
Inductive Sim : Type := the_sim.

(** ** The world of one environment instance *)

(** Calls that leave the adapter, in the order they are made. *)
Inductive event : Type :=
| ev_mocap_apply_action (ctrl : list Q)   (* [mocap.apply_action(sim, ctrl)] *)
| ev_sim_step                             (* [self.sim.step()] *)
| ev_sim_forward                          (* [self.sim.forward()] *)
| ev_mj_forward                           (* [mj_forward(model, data)] *)
| ev_glfw_destroy_window (h : positive)   (* [glfw.destroy_window(h)] *)
| ev_print (s : string)
| ev_render (mode : string)               (* [mujoco_renderer.render(mode)] *)
| ev_hook (name : string).                (* a hook of the concrete task *)

(** The attributes of [self] the class reads or writes.  [viewer] and [sim]
    are [None] while the instance has no such attribute; the value [None] of
    Python is [Some None]. *)
Record Base : Type := mkBase {
  gripper_rotation : loc;
  center_of_table : loc;
  max_z : Q;
  min_z : Q;
  n_substeps : Z;
  n_actions : Z;
  initial_time : Q;
  initial_qpos : list Q;
  initial_qvel : list Q;
  viewer : option (option Viewer);
  _viewers : gmap string Viewer;
  sim : option Sim
}.

Section Simxarm.

(** The buffers of the engine the adapter never names (mocap targets,
    derived positions, warm-start data, ...) and the state a concrete task
    keeps (its goal, its random generator). *)
Context {Internal TaskState : Type}.

(** [self.data]: the adapter writes [time], [qpos] and [qvel] itself. *)
Record mjData : Type := mkData {
  time : Q;
  qpos : list Q;
  qvel : list Q;
  internal : Internal
}.

Record world : Type := mkWorld {
  heap : gmap loc ndarray;
  self : Base;
  data : mjData;
  task : TaskState;
  offwidth : Z;             (* [model.vis.global_.offwidth] *)
  offheight : Z;            (* [model.vis.global_.offheight] *)
  trace : list event
}.

(** The external collaborators. *)
Record Physics : Type := mkPhysics {
  mj_forward : mjData -> mjData;
  sim_step : mjData -> mjData;
  sim_forward : mjData -> mjData;
  mocap_apply_action : mjData -> list Q -> mjData;
  get_site_xpos : mjData -> string -> vec3;
  get_joint_qpos : mjData -> string -> list Q;
  opt_timestep : Q;
  action_space_contains : ndarray -> bool;
  renderer_render : mjData -> Z -> Z -> string -> pyval
}.

(** A hook of a task: it sees and may change the task state and the
    simulation buffers, and it may raise. *)
Definition hook : Type := M (TaskState * mjData) pyval.

(** The methods a concrete task supplies. *)
Record Task : Type := mkTask {
  is_success : hook;
  get_reward : hook;
  _sample_goal : hook;
  _get_obs : hook
}.

(** *** Field updates *)

Definition set_heap (f : gmap loc ndarray -> gmap loc ndarray) (w : world) : world :=
  mkWorld (f (heap w)) (self w) (data w) (task w) (offwidth w) (offheight w) (trace w).

Definition set_self (f : Base -> Base) (w : world) : world :=
  mkWorld (heap w) (f (self w)) (data w) (task w) (offwidth w) (offheight w) (trace w).

Definition set_data (f : mjData -> mjData) (w : world) : world :=
  mkWorld (heap w) (self w) (f (data w)) (task w) (offwidth w) (offheight w) (trace w).

Definition set_sim (s : TaskState * mjData) (w : world) : world :=
  mkWorld (heap w) (self w) (snd s) (fst s) (offwidth w) (offheight w) (trace w).

Definition set_vis (width height : Z) (w : world) : world :=
  mkWorld (heap w) (self w) (data w) (task w) width height (trace w).

Definition log (e : event) (w : world) : world :=
  mkWorld (heap w) (self w) (data w) (task w) (offwidth w) (offheight w) (trace w ++ [e]).

Definition get {A} (f : world -> A) : M world A := fun w => (Ok (f w), w).

Definition modify (f : world -> world) : M world unit := fun w => (Ok tt, f w).

Definition lift {A} (r : result A) : M world A := fun w => (r, w).

(** *** The store *)

Definition load (l : loc) : M world ndarray :=
  fun w => match heap w !! l with
           | Some a => (Ok a, w)
           | None => (Raise BadReference, w)
           end.

(** A new array object. *)
Definition alloc (a : ndarray) : M world loc :=
  fun w => let l := fresh (dom (heap w)) in (Ok l, set_heap (insert l a) w).

(** [a.copy()]. *)
Definition copy (l : loc) : M world loc := a <- load l ;; alloc a.

(** [a[i]] on a one-dimensional array. *)
Definition getitem (l : loc) (i : nat) : M world Q :=
  a <- load l ;;
  match buf a !! i with
  | Some x => ret x
  | None => raise IndexError
  end.

(** [a[:n]] on a one-dimensional array: a view, no copy. *)
Definition slice_to (l : loc) (n : nat) : M world view :=
  a <- load l ;; ret (View l 0 (Nat.min n (length (buf a)))).

(** [v[i]]. *)
Definition view_getitem (v : view) (i : nat) : M world Q :=
  if (i <? len v)%nat then getitem (base v) (off v + i) else raise IndexError.

(** [v[i] = x]: the write lands in the base array. *)
Definition view_setitem (v : view) (i : nat) (x : Q) : M world unit :=
  if (i <? len v)%nat then
    a <- load (base v) ;;
    modify (set_heap (insert (base v) (NDArray (shape a) (<[(off v + i)%nat := x]> (buf a)))))
  else raise IndexError.

(** The elements a view denotes. *)
Definition view_values (v : view) : M world (list Q) :=
  a <- load (base v) ;; ret (take (len v) (drop (off v) (buf a))).


(** *** Attribute updates of [self] *)

Definition with_gripper_rotation (r : loc) (b : Base) : Base :=
  mkBase r (center_of_table b) (max_z b) (min_z b) (n_substeps b) (n_actions b)
         (initial_time b) (initial_qpos b) (initial_qvel b) (viewer b) (_viewers b) (sim b).

Definition with_center_of_table (c : loc) (b : Base) : Base :=
  mkBase (gripper_rotation b) c (max_z b) (min_z b) (n_substeps b) (n_actions b)
         (initial_time b) (initial_qpos b) (initial_qvel b) (viewer b) (_viewers b) (sim b).

Definition with_max_z (z : Q) (b : Base) : Base :=
  mkBase (gripper_rotation b) (center_of_table b) z (min_z b) (n_substeps b) (n_actions b)
         (initial_time b) (initial_qpos b) (initial_qvel b) (viewer b) (_viewers b) (sim b).

Definition with_min_z (z : Q) (b : Base) : Base :=
  mkBase (gripper_rotation b) (center_of_table b) (max_z b) z (n_substeps b) (n_actions b)
         (initial_time b) (initial_qpos b) (initial_qvel b) (viewer b) (_viewers b) (sim b).

Definition with_counts (substeps actions : Z) (b : Base) : Base :=
  mkBase (gripper_rotation b) (center_of_table b) (max_z b) (min_z b) substeps actions
         (initial_time b) (initial_qpos b) (initial_qvel b) (viewer b) (_viewers b) (sim b).

Definition with_viewer (v : option Viewer) (b : Base) : Base :=
  mkBase (gripper_rotation b) (center_of_table b) (max_z b) (min_z b)
         (n_substeps b) (n_actions b)
         (initial_time b) (initial_qpos b) (initial_qvel b) (Some v) (_viewers b) (sim b).

Definition with_viewers (vs : gmap string Viewer) (b : Base) : Base :=
  mkBase (gripper_rotation b) (center_of_table b) (max_z b) (min_z b)
         (n_substeps b) (n_actions b)
         (initial_time b) (initial_qpos b) (initial_qvel b) (viewer b) vs (sim b).

Definition with_time (t : Q) (d : mjData) : mjData :=
  mkData t (qpos d) (qvel d) (internal d).

Definition with_qpos (q : list Q) (d : mjData) : mjData :=
  mkData (time d) q (qvel d) (internal d).

Definition with_qvel (q : list Q) (d : mjData) : mjData :=
  mkData (time d) (qpos d) q (internal d).

(** [self.attribute]. *)
Definition attr {A} (f : Base -> A) : M world A := get (fun w => f (self w)).

(** [self.attribute] for an attribute the instance may lack. *)
Definition getattr {A} (f : Base -> option A) : M world A :=
  fun w => match f (self w) with
           | Some a => (Ok a, w)
           | None => (Raise AttributeError, w)
           end.

(** ** The class [Base] *)

Variable P : Physics.

(** *** Calls that leave the adapter *)

Definition call_mj_forward : M world unit :=
  modify (fun w => log ev_mj_forward (set_data (mj_forward P) w)).

(** [self.sim.step()]: the attribute is read, then its method called. *)
Definition call_sim_step : M world unit :=
  _ <- getattr sim ;;
  modify (fun w => log ev_sim_step (set_data (sim_step P) w)).

(** [self.sim.forward()]. *)
Definition call_sim_forward : M world unit :=
  _ <- getattr sim ;;
  modify (fun w => log ev_sim_forward (set_data (sim_forward P) w)).

(** [mocap.apply_action(sim, ctrl)], both arguments evaluated. *)
Definition call_mocap_apply_action (sim : Sim) (ctrl : list Q) : M world unit :=
  modify (fun w => log (ev_mocap_apply_action ctrl)
                       (set_data (fun d => mocap_apply_action P d ctrl) w)).

(** [self.name()] for a hook [h] of the concrete task. *)
Definition call_hook (name : string) (h : hook) : M world pyval :=
  fun w => let '(r, s) := h (task w, data w) in (r, log (ev_hook name) (set_sim s w)).

(** *** [__init__]

    The body sets four attributes and hands [n_substeps=20] and
    [n_actions=4] to the constructor of the framework class, which stores
    them.  This is all of the constructor that is embedded: what the
    framework constructor does besides (it builds the simulation, runs
    [_env_setup] and with it the goal hook, records the initial state, and
    may raise) is not part of [__init__] here; the world the body runs in
    stands for whatever the framework has built. *)
Definition __init__ (gripper_rotation : option (list Q)) : M world unit :=
  let gripper_rotation :=
    match gripper_rotation with
    | None => [0; 1; 0; 0]
    | Some l => l
    end in
  r <- alloc (array1 gripper_rotation) ;;
  modify (set_self (with_gripper_rotation r)) ;;;
  c <- alloc (array1 [1.655; 0.3; 0.63625]) ;;
  modify (set_self (with_center_of_table c)) ;;;
  modify (set_self (with_max_z 1.2)) ;;;
  modify (set_self (with_min_z 0.2)) ;;;
  modify (set_self (with_counts 20 4)).

(** *** Properties *)

Definition dt : M world Q :=
  get (fun w => inject_Z (n_substeps (self w)) * opt_timestep P).

Definition eef : M world vec3 :=
  get (fun w => get_site_xpos P (data w) "grasp").

Definition obj : M world vec3 :=
  get (fun w => get_site_xpos P (data w) "object_site").

Definition robot_state : M world (list Q) :=
  gripper_angle <- get (fun w => get_joint_qpos P (data w) "right_outer_knuckle_joint") ;;
  e <- eef ;;
  ret (vec3_to_list e ++ gripper_angle).

(** *** The hooks as [Base] defines them *)

(** [is_success]: the body is [return NotImplementedError()]. *)
Definition base_is_success : hook := ret (VExc NotImplementedError).

(** [get_reward]: the body is [raise NotImplementedError()]. *)
Definition base_get_reward : hook := raise NotImplementedError.

(** [_sample_goal]: the body is [raise NotImplementedError()]. *)
Definition base_sample_goal : hook := raise NotImplementedError.

(** [Base] used as it is: its own three hooks, and the [_get_obs] it
    inherits from the framework. *)
Definition BaseTask (inherited_get_obs : hook) : Task :=
  mkTask base_is_success base_get_reward base_sample_goal inherited_get_obs.

(** *** Methods *)

Variable T : Task.

Definition get_obs : M world pyval := call_hook "_get_obs" (_get_obs T).

Definition _step_callback : M world unit := call_sim_forward.

(** [if cond: body]. *)
Definition when (cond : bool) (body : M world unit) : M world unit :=
  if cond then body else ret tt.

(** [self.center_of_table[i]]. *)
Definition center (i : nat) : M world Q :=
  c <- attr center_of_table ;; getitem c i.

Definition _limit_gripper (gripper_pos : vec3) (pos_ctrl : view) : M world view :=
  c0 <- center 0 ;;
  when (Py.gtb (vx gripper_pos) (c0 - 0.105 + 0.15))
       (d <- view_getitem pos_ctrl 0 ;; view_setitem pos_ctrl 0 (Py.min d 0)) ;;;
  c0 <- center 0 ;;
  when (Py.ltb (vx gripper_pos) (c0 - 0.105 - 0.3))
       (d <- view_getitem pos_ctrl 0 ;; view_setitem pos_ctrl 0 (Py.max d 0)) ;;;
  c1 <- center 1 ;;
  when (Py.gtb (vy gripper_pos) (c1 + 0.3))
       (d <- view_getitem pos_ctrl 1 ;; view_setitem pos_ctrl 1 (Py.min d 0)) ;;;
  c1 <- center 1 ;;
  when (Py.ltb (vy gripper_pos) (c1 - 0.3))
       (d <- view_getitem pos_ctrl 1 ;; view_setitem pos_ctrl 1 (Py.max d 0)) ;;;
  hi <- attr max_z ;;
  when (Py.gtb (vz gripper_pos) hi)
       (d <- view_getitem pos_ctrl 2 ;; view_setitem pos_ctrl 2 (Py.min d 0)) ;;;
  lo <- attr min_z ;;
  when (Py.ltb (vz gripper_pos) lo)
       (d <- view_getitem pos_ctrl 2 ;; view_setitem pos_ctrl 2 (Py.max d 0)) ;;;
  ret pos_ctrl.

(** [1 / self.n_substeps]. *)
Definition substep_scale : M world Q :=
  n <- attr n_substeps ;;
  if (n =? 0)%Z then raise ZeroDivisionError else ret (1 / inject_Z n).

Definition _apply_action (action : loc) : M world unit :=
  a <- load action ;;
  assert (bool_decide (shape a = [4%nat])) ;;;
  action <- copy action ;;
  pos_ctrl <- slice_to action 3 ;;
  gripper_ctrl <- getitem action 3 ;;
  gripper_pos <- get (fun w => get_site_xpos P (data w) "grasp") ;;
  limited <- _limit_gripper gripper_pos pos_ctrl ;;
  k <- substep_scale ;;
  limited <- view_values limited ;;
  let pos_ctrl := map (fun x => x * k) limited in
  let gripper_ctrl := [gripper_ctrl; gripper_ctrl] in
  sim <- getattr sim ;;
  r <- attr gripper_rotation ;;
  r <- load r ;;
  rotation <- lift (as_1d r) ;;
  call_mocap_apply_action sim (pos_ctrl ++ rotation ++ gripper_ctrl).

Definition _render_callback : M world unit := call_mj_forward.

Definition _reset_sim : M world bool :=
  t0 <- attr initial_time ;;
  modify (set_data (with_time t0)) ;;;
  q0 <- attr initial_qpos ;;
  q <- get (fun w => qpos (data w)) ;;
  q <- lift (assign_all q q0) ;;
  modify (set_data (with_qpos q)) ;;;
  v0 <- attr initial_qvel ;;
  v <- get (fun w => qvel (data w)) ;;
  v <- lift (assign_all v v0) ;;
  modify (set_data (with_qvel v)) ;;;
  call_hook "_sample_goal" (_sample_goal T) ;;;
  for_range 10 call_mj_forward ;;;
  ret true.

Definition reset : M world pyval :=
  _reset_sim ;;;
  call_hook "_get_obs" (_get_obs T).

(** What [step] returns: [(obs, reward, done, info)]. *)
Definition step_result : Type := pyval * pyval * bool * gmap string pyval.

Definition step (action : loc) : M world step_result :=
  a <- load action ;;
  assert (bool_decide (shape a = [4%nat])) ;;;
  assert (action_space_contains P a) ;;;
  _apply_action action ;;;
  for_range 2 call_sim_step ;;;
  _step_callback ;;;
  obs <- call_hook "_get_obs" (_get_obs T) ;;
  reward <- call_hook "get_reward" (get_reward T) ;;
  let done := false in
  s1 <- call_hook "is_success" (is_success T) ;;
  s2 <- call_hook "is_success" (is_success T) ;;
  let info : gmap string pyval := <["success" := s2]> (<["is_success" := s1]> ∅) in
  ret (obs, reward, done, info).

Definition render (mode : string) (width height : Z) : M world pyval :=
  _render_callback ;;;
  modify (set_vis width height) ;;;
  modify (log (ev_render mode)) ;;;
  get (fun w => renderer_render P (data w) (offwidth w) (offheight w) mode).

Definition close : M world unit :=
  v <- getattr viewer ;;
  match v with
  | Some v =>
      modify (log (ev_print "Closing window glfw")) ;;;
      modify (log (ev_glfw_destroy_window (window v))) ;;;
      modify (set_self (with_viewer None))
  | None => ret tt
  end ;;;
  modify (set_self (with_viewers ∅)).

(** *** Sequences of calls on one instance *)

Inductive call : Type :=
| call_step (action : loc)
| call_reset
| call_render (mode : string) (width height : Z)
| call_close.

(** The world a call leaves behind, whether it returns or raises. *)
Definition run_call (w : world) (c : call) : world :=
  match c with
  | call_step action => snd (step action w)
  | call_reset => snd (reset w)
  | call_render mode width height => snd (render mode width height w)
  | call_close => snd (close w)
  end.

Definition run_calls (cs : list call) (w : world) : world :=
  fold_left run_call cs w.

(** [reset()] followed by a read of [robot_state]. *)
Definition reset_then_robot_state : M world (list Q) :=
  reset ;;; robot_state.

End Simxarm.

Arguments mjData : clear implicits.
Arguments world : clear implicits.
Arguments Physics : clear implicits.
Arguments hook : clear implicits.
Arguments Task : clear implicits.

(** ** Vocabulary of the statements *)

(** The control vectors a trace shows as forwarded to the mocap
    interface, oldest first. *)
Definition forwarded (tr : list event) : list (list Q) :=
  flat_map (fun e => match e with
                     | ev_mocap_apply_action ctrl => [ctrl]
                     | _ => []
                     end) tr.

(** The world of an instance whose constructor ran with rotation [rot]:
    the two arrays are in the store and the scalars hold the constructor's
    constants. *)
Definition constructed {Internal TaskState} (rot : list Q)
    (w : world Internal TaskState) : Prop :=
  heap w !! gripper_rotation (self w) = Some (array1 rot) /\
  heap w !! center_of_table (self w) = Some (array1 [1.655; 0.3; 0.63625]) /\
  max_z (self w) = 1.2 /\
  min_z (self w) = 0.2 /\
  n_substeps (self w) = 20%Z /\
  n_actions (self w) = 4%Z.

(** The rotation the constructor stores for an argument. *)
Definition rotation_of (gripper_rotation : option (list Q)) : list Q :=
  match gripper_rotation with
  | None => [0; 1; 0; 0]
  | Some l => l
  end.

(** The attributes the constructor sets. *)
Definition statics (b : Base) : loc * loc * Q * Q * Z * Z :=
  (gripper_rotation b, center_of_table b, max_z b, min_z b, n_substeps b, n_actions b).

(** [frame D w w']: from [w] to [w'] the arrays at the references [D] and
    the constructor's attributes stayed as they were. *)
Definition frame {Internal TaskState} (D : gset loc)
    (w w' : world Internal TaskState) : Prop :=
  D ⊆ dom (heap w') /\
  (forall l, l ∈ D -> heap w' !! l = heap w !! l) /\
  statics (self w') = statics (self w).

(** [keeps D m Q]: run in a world whose store holds the references [D], the
    body [m] leaves them framed, whether it returns or raises, and a value it
    returns satisfies [Q]. *)
Definition keeps {Internal TaskState A} (D : gset loc)
    (m : M (world Internal TaskState) A) (Q : A -> Prop) : Prop :=
  forall w, D ⊆ dom (heap w) ->
    frame D w (snd (m w)) /\ (forall a, fst (m w) = Ok a -> Q a).

(** [poke v i x w]: the world [w] after the write [v[i] = x]. *)
Definition poke {Internal TaskState} (v : view) (i : nat) (x : Q)
    (w : world Internal TaskState) : world Internal TaskState :=
  set_heap (alter (fun a => NDArray (shape a) (<[(off v + i)%nat := x]> (buf a))) (base v)) w.

(** [holds v xs w]: in [w] the view [v] denotes the elements [xs]. *)
Definition holds {Internal TaskState} (v : view) (xs : list Q)
    (w : world Internal TaskState) : Prop :=
  exists a, heap w !! base v = Some a /\ take (len v) (drop (off v) (buf a)) = xs.

(** One axis of [_limit_gripper], as the code sequences it: the upper test
    and its write, then the lower test and its write. *)
Definition clamp_seq (lower upper pos d : Q) : Q :=
  let d := if Py.gtb pos upper then Py.min d 0 else d in
  if Py.ltb pos lower then Py.max d 0 else d.

(** The workspace-limiting policy as the specification words it: one
    closed interval per axis; above it the delta is capped at zero, below
    it the delta is floored at zero, inside it the delta passes. *)
Definition clamp_delta (lower upper pos d : Q) : Q :=
  if Py.gtb pos upper then Qmin d 0
  else if Py.ltb pos lower then Qmax d 0
  else d.

Definition workspace_limit (cx cy : Q) (p : vec3) (d : list Q) : list Q :=
  match d with
  | [dx; dy; dz] =>
      [clamp_delta (cx - 0.405) (cx + 0.045) (vx p) dx;
       clamp_delta (cy - 0.3) (cy + 0.3) (vy p) dy;
       clamp_delta 0.2 1.2 (vz p) dz]
  | _ => d
  end.

(** The control vector the specification describes for the action
    [(a0, a1, a2, a3)] in the world [w] of an instance built with rotation
    [rot]: the limited deltas scaled by [1 / n_substeps], the rotation, the
    gripper command twice. *)
Definition control {Internal TaskState} (P : Physics Internal)
    (w : world Internal TaskState) (rot : list Q) (a0 a1 a2 a3 : Q) : list Q :=
  map (fun x => x * (1 / inject_Z (n_substeps (self w))))
      (workspace_limit 1.655 0.3 (get_site_xpos P (data w) "grasp") [a0; a1; a2])
  ++ rot ++ [a3; a3].

(** The world after [_apply_action] has copied the action [(a0, a1, a2,
    a3)] and clamped its copy: one new array, holding the limited deltas (not
    scaled) and the gripper command. *)
Definition clamped_copy {Internal TaskState} (P : Physics Internal)
    (w : world Internal TaskState) (a0 a1 a2 a3 : Q) : world Internal TaskState :=
  set_heap
    (insert (fresh (dom (heap w)))
       (NDArray [4%nat]
          (workspace_limit 1.655 0.3 (get_site_xpos P (data w) "grasp") [a0; a1; a2]
           ++ [a3])))
    w.

(** The buffers [_reset_sim] leaves in [self.data] before it samples the
    goal: the initial time and joint state, and whatever the engine keeps
    besides. *)
Definition restored {Internal TaskState} (w : world Internal TaskState) : mjData Internal :=
  mkData (initial_time (self w)) (initial_qpos (self w)) (initial_qvel (self w))
         (internal (data w)).

(** A hook that returns whatever the state it is called in. *)
Definition returns {Internal TaskState} (h : hook Internal TaskState) : Prop :=
  forall s, exists v s', h s = (Ok v, s').

(** Two data buffers with the same joint state. *)
Definition same_joints {Internal} (d d' : mjData Internal) : Prop :=
  time d = time d' /\ qpos d = qpos d' /\ qvel d = qvel d'.

(** The contract of a kinematics pass: it moves no joint, the positions it
    derives are functions of the joint state, and a joint lookup reads
    [qpos]. *)
Record kinematic {Internal} (P : Physics Internal) : Prop := {
  forward_joints : forall d, same_joints (mj_forward P d) d;
  forward_sites : forall d d' name,
    same_joints d d' ->
    get_site_xpos P (mj_forward P d) name = get_site_xpos P (mj_forward P d') name;
  joint_lookup : forall d d' name,
    qpos d = qpos d' -> get_joint_qpos P d name = get_joint_qpos P d' name
}.

(** A goal sampler whose outcome is fixed by the task state (the seed of
    its generator) and the joint state it is called in. *)
Definition seeded {Internal TaskState} (h : hook Internal TaskState) : Prop :=
  forall ts d d',
    same_joints d d' ->
    fst (h (ts, d)) = fst (h (ts, d')) /\
    fst (snd (h (ts, d))) = fst (snd (h (ts, d'))) /\
    same_joints (snd (snd (h (ts, d)))) (snd (snd (h (ts, d')))).

(** An observation hook: it leaves the simulation buffers alone, and what
    it reports after a kinematics pass is fixed by the joint state. *)
Definition observer {Internal TaskState} (P : Physics Internal)
    (h : hook Internal TaskState) : Prop :=
  (forall s, snd (snd (h s)) = snd s) /\
  (forall ts d d',
      same_joints d d' ->
      fst (h (ts, mj_forward P d)) = fst (h (ts, mj_forward P d'))).

(** ** A small concrete instance

    A point gripper: the first three joints are its position, the fourth
    its opening; the engine keeps the last mocap command as its only private
    buffer.  The task counts the goals it sampled.  The instance is one
    that has been given a [sim] and a [viewer] by hand, after construction. *)
Module Toy.

Definition site (d : mjData (list Q)) (name : string) : vec3 :=
  match qpos d with
  | x :: y :: z :: _ => Vec3 x y z
  | _ => Vec3 0 0 0
  end.

Definition in_unit_box (a : ndarray) : bool :=
  bool_decide (shape a = [4%nat])
  && forallb (fun x => Qle_bool (-1) x && Qle_bool x 1) (buf a).

Definition physics : Physics (list Q) :=
  mkPhysics
    (fun d => d)
    (fun d => mkData (time d + 0.002) (qpos d) (qvel d) (internal d))
    (fun d => d)
    (fun d ctrl => mkData (time d) (qpos d) (qvel d) ctrl)
    site
    (fun d _ => take 1 (drop 3 (qpos d)))
    0.002
    in_unit_box
    (fun _ _ _ _ => VNone).

Definition task : Task (list Q) nat :=
  mkTask
    (ret (VBool false))
    (ret (VFloat 0))
    (fun s => (Ok VNone, (S (fst s), snd s)))
    (fun s => (Ok (VArray (qpos (snd s))), s)).

(** The caller's action, at reference 1. *)
Definition action : loc := 1%positive.

Definition blank : Base :=
  mkBase 1%positive 1%positive 0 0 0%Z 0%Z 0 [1.5; 0.3; 0.5; 0] [0; 0; 0; 0]
         (Some (Some (mkViewer 7%positive))) ∅ (Some the_sim).

(** The world before the constructor body runs: the gripper sits beyond
    the upper x bound and below the lower z bound. *)
Definition world0 : world (list Q) nat :=
  mkWorld (<[action := NDArray [4%nat] [0.5; 0.25; -1; 1]]> ∅)
          blank
          (mkData 3 [1.8; 0.3; 0.1; 0] [0; 0; 0; 0] [])
          O 0%Z 0%Z [].

Definition world1 : world (list Q) nat := snd (__init__ None world0).

(** The same instance after another history: other joints, another private
    buffer. *)
Definition world2 : world (list Q) nat :=
  mkWorld (heap world1) (self world1)
          (mkData 9 [1.2; 0.1; 0.9; 1] [1; 1; 1; 1] [1; 2; 3])
          O 384%Z 384%Z [ev_sim_step].

End Toy.

(** ** The set-up methods

    [_set_gripper] and [_env_setup] are run while an instance is set up or a
    goal is sampled.  They go through helpers of the framework that write
    into the simulation buffers; these are the fields of [Utils].  The log of
    the world names the calls of the lifecycle methods only, so the helpers
    of [Utils] leave no entry in it.  [data_set_joint_qpos] is the method
    [set_joint_qpos] of the data object, [None] where the data class has no
    such method. *)

Section Setup.

Context {Internal TaskState : Type}.

Record Utils : Type := mkUtils {
  set_mocap_pos : mjData Internal -> string -> list Q -> mjData Internal;
  set_mocap_quat : mjData Internal -> string -> list Q -> mjData Internal;
  set_joint_qpos : mjData Internal -> string -> Q -> mjData Internal;
  data_set_joint_qpos : option (mjData Internal -> string -> Q -> mjData Internal);
  mocap_reset : mjData Internal -> mjData Internal
}.

Variable P : Physics Internal.
Variable U : Utils.
Variable T : Task Internal TaskState.

(** [self.data.qpos[i] = x]. *)
Definition qpos_setitem (i : nat) (x : Q) : M (world Internal TaskState) unit :=
  q <- get (fun w => qpos (data w)) ;;
  if (i <? length q)%nat
  then modify (set_data (with_qpos (<[i := x]> q)))
  else raise IndexError.

Definition _set_gripper (gripper_pos gripper_rotation : list Q)
    : M (world Internal TaskState) unit :=
  modify (set_data (fun d => set_mocap_pos U d "robot0:mocap" gripper_pos)) ;;;
  modify (set_data (fun d => set_mocap_quat U d "robot0:mocap" gripper_rotation)) ;;;
  modify (set_data (fun d => set_joint_qpos U d "right_outer_knuckle_joint" 0)) ;;;
  qpos_setitem 10 0 ;;;
  qpos_setitem 12 0.

(** [for name, value in initial_qpos.items(): body]: a dict is walked in
    the order its keys were inserted. *)
Fixpoint for_items (items : list (string * Q))
    (body : string -> Q -> M (world Internal TaskState) unit)
    : M (world Internal TaskState) unit :=
  match items with
  | [] => ret tt
  | (name, value) :: rest => body name value ;;; for_items rest body
  end.

(** [self.data.set_joint_qpos(name, value)]. *)
Definition call_data_set_joint_qpos (name : string) (value : Q)
    : M (world Internal TaskState) unit :=
  match data_set_joint_qpos U with
  | Some set => modify (set_data (fun d => set d name value))
  | None => raise AttributeError
  end.

Definition _env_setup (initial_qpos : list (string * Q))
    : M (world Internal TaskState) unit :=
  for_items initial_qpos call_data_set_joint_qpos ;;;
  modify (set_data (mocap_reset U)) ;;;
  call_mj_forward P ;;;
  call_hook "_sample_goal" (_sample_goal T) ;;;
  call_mj_forward P.

(** The buffers after the helper calls of [_set_gripper], before its two
    direct writes. *)
Definition gripper_set (d : mjData Internal) (gripper_pos gripper_rotation : list Q)
    : mjData Internal :=
  set_joint_qpos U
    (set_mocap_quat U (set_mocap_pos U d "robot0:mocap" gripper_pos)
                    "robot0:mocap" gripper_rotation)
    "right_outer_knuckle_joint" 0.

End Setup.

Arguments Utils : clear implicits.

(** The part of [step] that follows the simulation: the hooks of the task
    and the tuple built from what they return. *)
Definition step_hooks {Internal TaskState} (T : Task Internal TaskState)
    : M (world Internal TaskState) step_result :=
  obs <- call_hook "_get_obs" (_get_obs T) ;;
  reward <- call_hook "get_reward" (get_reward T) ;;
  let done := false in
  s1 <- call_hook "is_success" (is_success T) ;;
  s2 <- call_hook "is_success" (is_success T) ;;
  let info : gmap string pyval := <["success" := s2]> (<["is_success" := s1]> ∅) in
  ret (obs, reward, done, info).

(** The buffers a [step] hands to the hooks: the control applied, two
    physics steps, one kinematics pass. *)
Definition stepped {Internal} (P : Physics Internal) (d : mjData Internal)
    (ctrl : list Q) : mjData Internal :=
  sim_forward P (sim_step P (sim_step P (mocap_apply_action P d ctrl))).

(** The six values [_limit_gripper] writes, in the order it writes them. *)
Definition limit_writes (c0 c1 hi lo : Q) (p : vec3) (d0 d1 d2 : Q)
    : Q * Q * Q * Q * Q * Q :=
  let x1 := if Py.gtb (vx p) (c0 - 0.105 + 0.15) then Py.min d0 0 else d0 in
  let x2 := if Py.ltb (vx p) (c0 - 0.105 - 0.3) then Py.max x1 0 else x1 in
  let y1 := if Py.gtb (vy p) (c1 + 0.3) then Py.min d1 0 else d1 in
  let y2 := if Py.ltb (vy p) (c1 - 0.3) then Py.max y1 0 else y1 in
  let z1 := if Py.gtb (vz p) hi then Py.min d2 0 else d2 in
  let z2 := if Py.ltb (vz p) lo then Py.max z1 0 else z1 in
  (x1, x2, y1, y2, z1, z2).

(** The world after these six writes through the view [v]. *)
Definition limit_world {Internal TaskState} (v : view) (ws : Q * Q * Q * Q * Q * Q)
    (w : world Internal TaskState) : world Internal TaskState :=
  let '(x1, x2, y1, y2, z1, z2) := ws in
  poke v 2 z2 (poke v 2 z1 (poke v 1 y2 (poke v 1 y1 (poke v 0 x2 (poke v 0 x1 w))))).

Module ToySetup.

(** The helpers of the point gripper: the mocap target is the private
    buffer, the named joint is the fourth one; the data object has no
    [set_joint_qpos] of its own. *)
Definition utils : Utils (list Q) :=
  mkUtils
    (fun d _ pos => mkData (time d) (qpos d) (qvel d) pos)
    (fun d _ quat => mkData (time d) (qpos d) (qvel d) (internal d ++ quat))
    (fun d _ x => mkData (time d) (<[3%nat := x]> (qpos d)) (qvel d) (internal d))
    None
    (fun d => mkData (time d) (qpos d) (qvel d) []).

(** An arm with fourteen joints, and one with four. *)
Definition long_world : world (list Q) nat :=
  mkWorld (heap Toy.world1) (self Toy.world1)
          (mkData 0 [1; 2; 3; 4; 5; 6; 7; 8; 9; 10; 11; 12; 13; 14] [] [])
          O 0%Z 0%Z [].

End ToySetup.

(** The same point gripper as the framework builds it: the class assigns
    neither [sim] nor [viewer], and the instance has neither. *)
Module Built.

Definition blank : Base :=
  mkBase 1%positive 1%positive 0 0 0%Z 0%Z 0 [1.5; 0.3; 0.5; 0] [0; 0; 0; 0]
         None ∅ None.

Definition world0 : world (list Q) nat :=
  mkWorld (<[Toy.action := NDArray [4%nat] [0.5; 0.25; -1; 1]]> ∅)
          blank
          (mkData 3 [1.8; 0.3; 0.1; 0] [0; 0; 0; 0] [])
          O 0%Z 0%Z [].

Definition world1 : world (list Q) nat := snd (__init__ None world0).

End Built.

(** * Properties *)

(** ** Python scalars *)

Module PyFacts.

Lemma ltb_lt x y : Py.ltb x y = true <-> x < y.
Proof.
  unfold Py.ltb. rewrite negb_true_iff. split.
  - intros H. apply Qnot_le_lt. intros Hle.
    apply Qle_bool_iff in Hle. congruence.
  - intros H. destruct (Qle_bool y x) eqn:E; [|reflexivity].
    apply Qle_bool_iff in E. exfalso. exact (Qlt_not_le _ _ H E).
Qed.

Lemma ltb_ge x y : Py.ltb x y = false <-> y <= x.
Proof.
  unfold Py.ltb. rewrite negb_false_iff. apply Qle_bool_iff.
Qed.

Lemma gtb_gt x y : Py.gtb x y = true <-> y < x.
Proof. apply ltb_lt. Qed.

Lemma gtb_le x y : Py.gtb x y = false <-> x <= y.
Proof. apply ltb_ge. Qed.

(** Comparisons do not see which fraction denotes a bound. *)
Lemma ltb_proper x y y' : y == y' -> Py.ltb x y = Py.ltb x y'.
Proof.
  intros E. unfold Py.ltb. f_equal. now apply Qleb_comp.
Qed.

Lemma gtb_proper x y y' : y == y' -> Py.gtb x y = Py.gtb x y'.
Proof.
  intros E. unfold Py.gtb, Py.ltb. f_equal. now apply Qleb_comp.
Qed.

(** The builtin [min] and [max] against zero pick the same operand as the
    library's. *)
Lemma min_0 d : Py.min d 0 = Qmin d 0.
Proof.
  unfold Py.min, Qmin, GenericMinMax.gmin.
  destruct (d ?= 0) eqn:C; destruct (Py.ltb 0 d) eqn:E; try reflexivity.
  - apply ltb_lt in E. apply Qeq_alt in C. rewrite C in E.
    exfalso. exact (Qlt_irrefl _ E).
  - apply ltb_lt in E. apply Qlt_alt in C.
    exfalso. exact (Qlt_irrefl _ (Qlt_trans _ _ _ C E)).
  - apply ltb_ge in E. apply Qgt_alt in C.
    exfalso. exact (Qlt_not_le _ _ C E).
Qed.

Lemma max_0 d : Py.max d 0 = Qmax d 0.
Proof.
  unfold Py.max, Py.gtb, Qmax, GenericMinMax.gmax.
  destruct (d ?= 0) eqn:C; destruct (Py.ltb d 0) eqn:E; try reflexivity.
  - apply ltb_lt in E. apply Qeq_alt in C. rewrite C in E.
    exfalso. exact (Qlt_irrefl _ E).
  - apply ltb_ge in E. apply Qlt_alt in C.
    exfalso. exact (Qlt_not_le _ _ C E).
  - apply ltb_lt in E. apply Qgt_alt in C.
    exfalso. exact (Qlt_irrefl _ (Qlt_trans _ _ _ C E)).
Qed.

Lemma min_0_nonpos d : Qmin d 0 <= 0.
Proof. apply Q.le_min_r. Qed.

Lemma max_0_nonneg d : 0 <= Qmax d 0.
Proof. apply Q.le_max_r. Qed.

End PyFacts.

(** ** Running a method body *)

Section Run.

Context {W : Type}.

Lemma bind_ok {A B} (m : M W A) (k : A -> M W B) w a w' :
  m w = (Ok a, w') -> bind m k w = k a w'.
Proof. intros E. unfold bind. now rewrite E. Qed.

Lemma assert_true w : assert (W := W) true w = (Ok tt, w).
Proof. reflexivity. Qed.

End Run.

(** ** The abstract hooks *)

Section Hooks.

Context {Internal TaskState : Type}.

Local Abbreviation sim := (TaskState * mjData Internal)%type.

(** C1 (as the code has it): called on [Base] itself, [get_reward] and
    [_sample_goal] raise [NotImplementedError], but [is_success] does not
    fail: it returns normally, and what it returns is an exception instance.
    Seen through the call of a hook, the world only gains the log entry. *)
Theorem base_is_success_returns_instead_of_raising :
  forall (s : sim) (o : hook Internal TaskState) (w : world Internal TaskState),
    base_get_reward s = (Raise NotImplementedError, s) /\
    base_sample_goal s = (Raise NotImplementedError, s) /\
    base_is_success s = (Ok (VExc NotImplementedError), s) /\
    fst (call_hook "is_success" (is_success (BaseTask o)) w)
      = Ok (VExc NotImplementedError) /\
    fst (call_hook "get_reward" (get_reward (BaseTask o)) w)
      = Raise NotImplementedError /\
    fst (call_hook "_sample_goal" (_sample_goal (BaseTask o)) w)
      = Raise NotImplementedError.
Proof.
  intros s o w. repeat split; reflexivity.
Qed.

End Hooks.

(** ** [close] *)

Section Close.

Context {Internal TaskState : Type}.

Local Abbreviation world := (world Internal TaskState).

Lemma close_run (w : world) :
  close w =
    match viewer (self w) with
    | None => (Raise AttributeError, w)
    | Some None => (Ok tt, set_self (with_viewers ∅) w)
    | Some (Some v) =>
        (Ok tt,
         set_self (with_viewers ∅)
           (set_self (with_viewer None)
              (log (ev_glfw_destroy_window (window v))
                 (log (ev_print "Closing window glfw") w))))
    end.
Proof.
  unfold close, getattr, bind. cbn.
  destruct (viewer (self w)) as [[v|]|]; reflexivity.
Qed.

(** C7 (as the code has it): [close] starts by reading [self.viewer].  On an
    instance without that attribute, which is what the class and its
    framework build, the read raises [AttributeError]: the call does not
    return, the viewer cache is not emptied, the world is as it was, and a
    second call fails the same way. *)
Theorem close_raises_without_a_viewer_attribute :
  forall w : world,
    viewer (self w) = None ->
    close w = (Raise AttributeError, w) /\
    close (snd (close w)) = (Raise AttributeError, w).
Proof.
  intros w Hv. rewrite !close_run, Hv. cbn. rewrite Hv. split; reflexivity.
Qed.

End Close.

(** The instance as the framework builds it has no [viewer]. *)
Lemma close_raises_without_a_viewer_attribute_witness :
  close Built.world1 = (Raise AttributeError, Built.world1).
Proof.
  assert (H : viewer (self Built.world1) = None) by (vm_compute; reflexivity).
  exact (proj1 (close_raises_without_a_viewer_attribute Built.world1 H)).
Defined.

(** ** What a method leaves alone *)

Section Frame.

Context {Internal TaskState : Type}.

Local Abbreviation world := (world Internal TaskState).
Local Abbreviation keeps := (keeps (Internal := Internal) (TaskState := TaskState)).

Lemma frame_refl D (w : world) : D ⊆ dom (heap w) -> frame D w w.
Proof. intros H. repeat split; auto. Qed.

Lemma frame_trans D (w1 w2 w3 : world) :
  frame D w1 w2 -> frame D w2 w3 -> frame D w1 w3.
Proof.
  intros (H1 & H2 & H3) (K1 & K2 & K3). repeat split; auto.
  - intros l Hl. rewrite K2, H2; auto.
  - congruence.
Qed.

Lemma keeps_ret {A} D (a : A) (Q : A -> Prop) : Q a -> keeps D (ret a) Q.
Proof.
  intros HQ w Hw. split; [now apply frame_refl|].
  cbn. intros a' [= <-]. exact HQ.
Qed.

Lemma keeps_raise {A} D e (Q : A -> Prop) : keeps D (raise e) Q.
Proof.
  intros w Hw. split; [now apply frame_refl|]. cbn. discriminate.
Qed.

Lemma keeps_bind {A B} D (m : M world A) (k : A -> M world B) Q Q' :
  keeps D m Q -> (forall a, Q a -> keeps D (k a) Q') -> keeps D (bind m k) Q'.
Proof.
  intros Hm Hk w Hw. destruct (Hm w Hw) as [Hf Hr].
  unfold bind. destruct (m w) as [[a|e] w1] eqn:E; cbn in *.
  - assert (HD : D ⊆ dom (heap w1)) by apply Hf.
    destruct (Hk a (Hr a eq_refl) w1 HD) as [Hf' Hr'].
    split; [eapply frame_trans; eauto | exact Hr'].
  - split; [exact Hf | discriminate].
Qed.

Lemma keeps_get {A} D (f : world -> A) : keeps D (get f) (fun _ => True).
Proof. intros w Hw. split; [now apply frame_refl | auto]. Qed.

Lemma keeps_attr {A} D (f : Base -> A) : keeps D (attr f) (fun _ => True).
Proof. apply keeps_get. Qed.

Lemma keeps_getattr {A} D (f : Base -> option A) :
  keeps D (getattr f) (fun _ => True).
Proof.
  intros w Hw. unfold getattr. destruct (f (self w));
    (split; [now apply frame_refl | auto]).
Qed.

Lemma keeps_lift {A} D (r : result A) : keeps D (lift r) (fun _ => True).
Proof. intros w Hw. split; [now apply frame_refl | auto]. Qed.

Lemma keeps_assert D b : keeps D (assert b) (fun _ => True).
Proof. intros w Hw. destruct b; (split; [now apply frame_refl | auto]). Qed.

(** An update that touches neither the store nor the constructor's
    attributes. *)
Lemma keeps_modify D (f : world -> world) :
  (forall w, heap (f w) = heap w /\ statics (self (f w)) = statics (self w)) ->
  keeps D (modify f) (fun _ => True).
Proof.
  intros Hf w Hw. destruct (Hf w) as [Hh Hs]. cbn.
  split; [|auto]. unfold frame. rewrite Hh. repeat split; auto.
Qed.

Lemma keeps_load D l : keeps D (load l) (fun _ => True).
Proof.
  intros w Hw. unfold load. destruct (heap w !! l);
    (split; [now apply frame_refl | auto]).
Qed.

(** A new array is none of the protected ones. *)
Lemma keeps_alloc D a : keeps D (alloc a) (fun l => l ∉ D).
Proof.
  intros w Hw. unfold alloc. cbn.
  assert (Hfresh : fresh (dom (heap w)) ∉ D).
  { intros Hin. apply (is_fresh (dom (heap w))). now apply Hw. }
  split.
  - repeat split; cbn.
    + rewrite dom_insert_L. set_solver.
    + intros l Hl. apply lookup_insert_ne. intros E. apply Hfresh. now rewrite E.
  - intros l [= <-]. exact Hfresh.
Qed.

Lemma keeps_copy D l : keeps D (copy l) (fun l' => l' ∉ D).
Proof.
  unfold copy. eapply keeps_bind; [apply keeps_load|].
  intros a _. apply keeps_alloc.
Qed.

Lemma keeps_getitem D l i : keeps D (getitem l i) (fun _ => True).
Proof.
  unfold getitem. eapply keeps_bind; [apply keeps_load|].
  intros a _. destruct (buf a !! i); [now apply keeps_ret | apply keeps_raise].
Qed.

Lemma keeps_slice_to D l n : keeps D (slice_to l n) (fun v => base v = l).
Proof.
  unfold slice_to. eapply keeps_bind; [apply keeps_load|].
  intros a _. now apply keeps_ret.
Qed.

Lemma keeps_view_getitem D v i : keeps D (view_getitem v i) (fun _ => True).
Proof.
  unfold view_getitem. destruct (i <? len v)%nat;
    [apply keeps_getitem | apply keeps_raise].
Qed.

(** A write through a view of an unprotected array. *)
Lemma keeps_view_setitem D v i x :
  base v ∉ D -> keeps D (view_setitem v i x) (fun _ => True).
Proof.
  intros Hv. unfold view_setitem.
  destruct (i <? len v)%nat; [|apply keeps_raise].
  eapply keeps_bind; [apply keeps_load|].
  intros a _ w Hw. cbn. split; [|auto].
  repeat split; cbn.
  - rewrite dom_insert_L. set_solver.
  - intros l Hl. apply lookup_insert_ne. intros E. apply Hv. now rewrite E.
Qed.

Lemma keeps_view_values D v : keeps D (view_values v) (fun _ => True).
Proof.
  unfold view_values. eapply keeps_bind; [apply keeps_load|].
  intros a _. now apply keeps_ret.
Qed.

Lemma keeps_for_range D n (body : M world unit) :
  keeps D body (fun _ => True) -> keeps D (for_range n body) (fun _ => True).
Proof.
  intros Hb. induction n as [|n IH]; cbn.
  - now apply keeps_ret.
  - eapply keeps_bind; [exact Hb|]. intros _ _. exact IH.
Qed.

End Frame.

(** ** The methods and the store *)

Section MethodsFrame.

Context {Internal TaskState : Type}.
Context (P : Physics Internal) (T : Task Internal TaskState).

Local Abbreviation world := (world Internal TaskState).
Local Abbreviation keeps := (keeps (Internal := Internal) (TaskState := TaskState)).

Local Ltac kbind lem := eapply keeps_bind; [apply lem | intros ? ?].

Lemma keeps_log D e : keeps D (modify (log e)) (fun _ => True).
Proof. apply keeps_modify. intros w. split; reflexivity. Qed.

Lemma keeps_call_mj_forward D : keeps D (call_mj_forward P) (fun _ : unit => True).
Proof. apply keeps_modify. intros w. split; reflexivity. Qed.

Lemma keeps_call_sim_step D : keeps D (call_sim_step P) (fun _ : unit => True).
Proof.
  unfold call_sim_step. kbind @keeps_getattr.
  apply keeps_modify. intros w. split; reflexivity.
Qed.

Lemma keeps_call_sim_forward D : keeps D (call_sim_forward P) (fun _ : unit => True).
Proof.
  unfold call_sim_forward. kbind @keeps_getattr.
  apply keeps_modify. intros w. split; reflexivity.
Qed.

Lemma keeps_call_mocap D sim ctrl :
  keeps D (call_mocap_apply_action P sim ctrl) (fun _ : unit => True).
Proof. apply keeps_modify. intros w. split; reflexivity. Qed.

Lemma keeps_call_hook D name (h : hook Internal TaskState) :
  keeps D (call_hook name h) (fun _ => True).
Proof.
  intros w Hw. unfold call_hook.
  destruct (h (task w, data w)) as [r s]. cbn.
  split; [|auto]. repeat split; auto.
Qed.

Lemma keeps_when D c (body : M world unit) :
  keeps D body (fun _ => True) -> keeps D (when c body) (fun _ => True).
Proof. intros H. destruct c; cbn; [exact H | now apply keeps_ret]. Qed.

Lemma keeps_center D i :
  keeps D (center i) (fun _ => True).
Proof. unfold center. kbind @keeps_attr. apply keeps_getitem. Qed.

(** One guarded clamp of [_limit_gripper]. *)
Lemma keeps_clamp D c v i (f : Q -> Q) :
  base v ∉ D ->
  keeps D (when c (d <- view_getitem v i ;; view_setitem v i (f d))) (fun _ => True).
Proof.
  intros Hv. apply keeps_when. kbind @keeps_view_getitem.
  now apply keeps_view_setitem.
Qed.

Lemma keeps_limit_gripper D p v :
  base v ∉ D ->
  keeps D (_limit_gripper p v) (fun _ => True).
Proof.
  intros Hv. unfold _limit_gripper.
  kbind @keeps_center. eapply keeps_bind; [now apply keeps_clamp | intros ? ?].
  kbind @keeps_center. eapply keeps_bind; [now apply keeps_clamp | intros ? ?].
  kbind @keeps_center. eapply keeps_bind; [now apply keeps_clamp | intros ? ?].
  kbind @keeps_center. eapply keeps_bind; [now apply keeps_clamp | intros ? ?].
  kbind @keeps_attr. eapply keeps_bind; [now apply keeps_clamp | intros ? ?].
  kbind @keeps_attr. eapply keeps_bind; [now apply keeps_clamp | intros ? ?].
  now apply keeps_ret.
Qed.

Lemma keeps_substep_scale D :
  keeps D substep_scale (fun _ => True).
Proof.
  unfold substep_scale. kbind @keeps_attr.
  destruct (_ =? _)%Z; [apply keeps_raise | now apply keeps_ret].
Qed.

(** [_apply_action] writes to its own copy only. *)
Lemma keeps_apply_action D action :
  keeps D (_apply_action P action) (fun _ => True).
Proof.
  unfold _apply_action.
  kbind @keeps_load. kbind @keeps_assert.
  eapply keeps_bind; [apply keeps_copy | intros l Hl].
  eapply keeps_bind; [apply keeps_slice_to | intros v Hv].
  kbind @keeps_getitem. kbind @keeps_get.
  eapply keeps_bind; [apply keeps_limit_gripper; now rewrite Hv | intros ? ?].
  kbind @keeps_substep_scale. kbind @keeps_view_values.
  kbind @keeps_getattr.
  kbind @keeps_attr. kbind @keeps_load. kbind @keeps_lift.
  apply keeps_call_mocap.
Qed.

Lemma keeps_step D action : keeps D (step P T action) (fun _ => True).
Proof.
  unfold step, _step_callback.
  kbind @keeps_load. kbind @keeps_assert. kbind @keeps_assert.
  kbind keeps_apply_action.
  eapply keeps_bind; [apply keeps_for_range, keeps_call_sim_step | intros ? ?].
  kbind keeps_call_sim_forward.
  kbind keeps_call_hook. kbind keeps_call_hook.
  kbind keeps_call_hook. kbind keeps_call_hook.
  now apply keeps_ret.
Qed.

Lemma keeps_reset_sim D : keeps D (_reset_sim P T) (fun _ => True).
Proof.
  unfold _reset_sim.
  kbind @keeps_attr.
  eapply keeps_bind; [apply keeps_modify; intros w; split; reflexivity | intros ? ?].
  kbind @keeps_attr. kbind @keeps_get. kbind @keeps_lift.
  eapply keeps_bind; [apply keeps_modify; intros w; split; reflexivity | intros ? ?].
  kbind @keeps_attr. kbind @keeps_get. kbind @keeps_lift.
  eapply keeps_bind; [apply keeps_modify; intros w; split; reflexivity | intros ? ?].
  kbind keeps_call_hook.
  eapply keeps_bind; [apply keeps_for_range, keeps_call_mj_forward | intros ? ?].
  now apply keeps_ret.
Qed.

Lemma keeps_reset D : keeps D (reset P T) (fun _ => True).
Proof.
  unfold reset. kbind keeps_reset_sim. apply keeps_call_hook.
Qed.

Lemma keeps_render D mode width height :
  keeps D (render P mode width height) (fun _ => True).
Proof.
  unfold render, _render_callback.
  kbind keeps_call_mj_forward.
  eapply keeps_bind; [apply keeps_modify; intros w; split; reflexivity | intros ? ?].
  kbind keeps_log. apply keeps_get.
Qed.

Lemma keeps_close D :
  keeps D close (fun _ => True).
Proof.
  unfold close. kbind @keeps_getattr.
  eapply keeps_bind with (Q := fun _ => True).
  - destruct a as [v|]; [|now apply keeps_ret].
    kbind keeps_log. kbind keeps_log.
    apply keeps_modify. intros w. split; reflexivity.
  - intros ? ?. apply keeps_modify. intros w. split; reflexivity.
Qed.

Lemma frame_run_call D (w : world) c :
  D ⊆ dom (heap w) -> frame D w (run_call P T w c).
Proof.
  intros Hw. destruct c as [action| |mode width height|]; cbn.
  - apply (keeps_step D action w Hw).
  - apply (keeps_reset D w Hw).
  - apply (keeps_render D mode width height w Hw).
  - apply (keeps_close D w Hw).
Qed.

Lemma frame_run_calls D cs (w : world) :
  D ⊆ dom (heap w) -> frame D w (run_calls P T cs w).
Proof.
  revert w. induction cs as [|c cs IH]; intros w Hw; cbn.
  - now apply frame_refl.
  - pose proof (frame_run_call D w c Hw) as Hf.
    eapply frame_trans; [exact Hf|]. apply IH. apply Hf.
Qed.

End MethodsFrame.

(** ** The constructor's attributes *)

Section Constructed.

Context {Internal TaskState : Type}.
Context (P : Physics Internal) (T : Task Internal TaskState).

Local Abbreviation world := (world Internal TaskState).

Lemma init_run gr (w0 : world) :
  let r := fresh (dom (heap w0)) in
  let h1 := <[r := array1 (rotation_of gr)]> (heap w0) in
  let c := fresh (dom h1) in
  __init__ gr w0 =
    (Ok tt,
     set_self (with_counts 20 4)
       (set_self (with_min_z 0.2)
          (set_self (with_max_z 1.2)
             (set_self (with_center_of_table c)
                (set_heap (insert c (array1 [1.655; 0.3; 0.63625]))
                   (set_self (with_gripper_rotation r)
                      (set_heap (insert r (array1 (rotation_of gr))) w0))))))).
Proof. destruct gr; reflexivity. Qed.

Lemma init_constructed gr (w0 : world) :
  constructed (rotation_of gr) (snd (__init__ gr w0)).
Proof.
  rewrite init_run. cbn.
  set (r := fresh (dom (heap w0))).
  set (h1 := <[r := array1 (rotation_of gr)]> (heap w0)).
  set (c := fresh (dom h1)).
  assert (Hrc : c <> r).
  { intros E. apply (is_fresh (dom h1)). fold c. rewrite E.
    unfold h1. rewrite dom_insert_L. set_solver. }
  unfold constructed; cbn. repeat split.
  - rewrite lookup_insert_ne by exact Hrc. apply lookup_insert_eq.
  - apply lookup_insert_eq.
Qed.

Lemma constructed_dom rot (w : world) :
  constructed rot w ->
  {[gripper_rotation (self w); center_of_table (self w)]} ⊆ dom (heap w).
Proof.
  intros (Hr & Hc & _). intros l Hl.
  apply elem_of_dom.
  apply elem_of_union in Hl as [Hl|Hl]; apply elem_of_singleton in Hl; subst l; eauto.
Qed.

Lemma frame_constructed rot (w w' : world) :
  constructed rot w ->
  frame {[gripper_rotation (self w); center_of_table (self w)]} w w' ->
  constructed rot w' /\
  gripper_rotation (self w') = gripper_rotation (self w) /\
  center_of_table (self w') = center_of_table (self w).
Proof.
  intros (Hr & Hc & Hhi & Hlo & Hn & Ha) (_ & Hk & Hs).
  unfold statics in Hs. injection Hs as E1 E2 E3 E4 E5 E6.
  split; [|auto]. unfold constructed.
  rewrite E1, E2, E3, E4, E5, E6.
  rewrite !Hk by set_solver. auto 10.
Qed.

(** C9: whatever sequence of [step], [reset], [render] and [close] calls
    follows the constructor, returning or raising, the instance still refers
    to the rotation array the constructor made, that array still holds the
    constructor's quaternion, and the same goes for the table centre and the
    two z bounds. *)
Theorem constructor_attributes_are_never_modified :
  forall (gr : option (list Q)) (w0 : world) (cs : list call),
    let w1 := snd (__init__ gr w0) in
    let w := run_calls P T cs w1 in
    fst (__init__ gr w0) = Ok tt /\
    heap w1 !! gripper_rotation (self w1) = Some (array1 (rotation_of gr)) /\
    gripper_rotation (self w) = gripper_rotation (self w1) /\
    heap w !! gripper_rotation (self w) = Some (array1 (rotation_of gr)) /\
    center_of_table (self w) = center_of_table (self w1) /\
    heap w !! center_of_table (self w) = Some (array1 [1.655; 0.3; 0.63625]) /\
    max_z (self w) = 1.2 /\
    min_z (self w) = 0.2.
Proof.
  intros gr w0 cs w1 w.
  pose proof (init_constructed gr w0) as Hc. fold w1 in Hc.
  pose proof (frame_run_calls P T _ cs w1 (constructed_dom _ _ Hc)) as Hf.
  fold w in Hf.
  destruct (frame_constructed _ _ _ Hc Hf) as ((Hr & Hct & Hhi & Hlo & _) & E1 & E2).
  split; [now rewrite init_run|].
  split; [apply Hc|]. auto 10.
Qed.

(** C10: [step] leaves the caller's array as it found it, whatever the
    action and whether the call returns or raises: the clamping writes land
    in the copy [_apply_action] makes. *)
Theorem step_does_not_mutate_the_action :
  forall (w : world) (action : loc) (a : ndarray),
    heap w !! action = Some a ->
    heap (snd (step P T action w)) !! action = Some a.
Proof.
  intros w action a Ha.
  assert (Hd : {[action]} ⊆ dom (heap w)).
  { intros l Hl. apply elem_of_singleton in Hl. subst l.
    apply elem_of_dom. eauto. }
  destruct (keeps_step P T {[action]} action w Hd) as [(_ & Hk & _) _].
  rewrite Hk by set_solver. exact Ha.
Qed.

End Constructed.

(** The caller's array in the toy world: [step] returns there, and clamps
    two of the three deltas in its copy. *)
Lemma step_does_not_mutate_the_action_witness :
  heap (snd (step Toy.physics Toy.task Toy.action Toy.world1)) !! Toy.action
    = Some (NDArray [4%nat] [0.5; 0.25; -1; 1]).
Proof.
  apply (step_does_not_mutate_the_action Toy.physics Toy.task Toy.world1 Toy.action).
  vm_compute. reflexivity.
Defined.

(** ** Reading and writing through a view *)

Section Exec.

Context {Internal TaskState : Type}.

Local Abbreviation world := (world Internal TaskState).

Lemma load_ok (w : world) l a : heap w !! l = Some a -> load l w = (Ok a, w).
Proof. intros E. unfold load. now rewrite E. Qed.

Lemma getitem_ok (w : world) l a i x :
  heap w !! l = Some a -> buf a !! i = Some x -> getitem l i w = (Ok x, w).
Proof.
  intros Ha Hx. unfold getitem. rewrite (bind_ok _ _ _ _ _ (load_ok _ _ _ Ha)).
  now rewrite Hx.
Qed.

Lemma holds_lookup v xs (w : world) i d :
  holds v xs w -> xs !! i = Some d ->
  (i < len v)%nat /\
  exists a, heap w !! base v = Some a /\ buf a !! (off v + i)%nat = Some d.
Proof.
  intros (a & Ha & <-) Hd.
  apply lookup_take_Some in Hd as [Hd Hi].
  rewrite lookup_drop in Hd. eauto.
Qed.

Lemma view_values_ok v xs (w : world) :
  holds v xs w -> view_values v w = (Ok xs, w).
Proof.
  intros (a & Ha & <-). unfold view_values.
  now rewrite (bind_ok _ _ _ _ _ (load_ok _ _ _ Ha)).
Qed.

Lemma poke_other v i x (w : world) l :
  l <> base v -> heap (poke v i x w) !! l = heap w !! l.
Proof. intros Hl. cbn. now apply lookup_alter_ne. Qed.

Lemma poke_holds v xs i x (w : world) :
  holds v xs w -> holds v (<[i := x]> xs) (poke v i x w).
Proof.
  intros (a & Ha & <-). unfold holds. cbn.
  rewrite lookup_alter_eq, Ha. cbn. eexists. split; [reflexivity|]. cbn.
  rewrite drop_insert_ge by lia.
  replace (off v + i - off v)%nat with i by lia.
  destruct (decide (i < len v)%nat) as [Hi|Hi].
  - now rewrite take_insert_lt.
  - rewrite take_insert_ge by lia.
    rewrite list_insert_ge; [reflexivity|].
    rewrite length_take. lia.
Qed.

(** A write of the value already there changes nothing. *)
Lemma poke_same v xs i d (w : world) :
  holds v xs w -> xs !! i = Some d -> poke v i d w = w.
Proof.
  intros Hh Hd. destruct (holds_lookup _ _ _ _ _ Hh Hd) as (_ & a & Ha & Hb).
  unfold poke. destruct w as [h b dat ts ow oh tr]. cbn in *.
  unfold set_heap. cbn. f_equal.
  apply map_eq. intros l. destruct (decide (l = base v)) as [->|Hl].
  - rewrite lookup_alter_eq, Ha. cbn. f_equal.
    destruct a as [sh bf]. cbn in *. f_equal. now apply list_insert_id.
  - now rewrite lookup_alter_ne.
Qed.

Lemma view_getitem_ok v xs i d (w : world) :
  holds v xs w -> xs !! i = Some d -> view_getitem v i w = (Ok d, w).
Proof.
  intros Hh Hd. destruct (holds_lookup _ _ _ _ _ Hh Hd) as (Hi & a & Ha & Hb).
  unfold view_getitem. apply Nat.ltb_lt in Hi. rewrite Hi.
  eapply getitem_ok; eauto.
Qed.

Lemma view_setitem_ok v xs i d x (w : world) :
  holds v xs w -> xs !! i = Some d -> view_setitem v i x w = (Ok tt, poke v i x w).
Proof.
  intros Hh Hd. destruct (holds_lookup _ _ _ _ _ Hh Hd) as (Hi & a & Ha & Hb).
  unfold view_setitem. apply Nat.ltb_lt in Hi. rewrite Hi.
  rewrite (bind_ok _ _ _ _ _ (load_ok _ _ _ Ha)).
  unfold modify, poke, set_heap. cbn. do 2 f_equal.
  apply map_eq. intros l. destruct (decide (l = base v)) as [->|Hl].
  - now rewrite lookup_insert_eq, lookup_alter_eq, Ha.
  - now rewrite lookup_insert_ne, lookup_alter_ne.
Qed.

(** One guarded clamp of [_limit_gripper]. *)
Lemma clamp_run c (f : Q -> Q) v xs i d (w : world) :
  holds v xs w -> xs !! i = Some d ->
  when c (d <- view_getitem v i ;; view_setitem v i (f d)) w
    = (Ok tt, poke v i (if c then f d else d) w).
Proof.
  intros Hh Hd. destruct c; cbn.
  - rewrite (bind_ok _ _ _ _ _ (view_getitem_ok _ _ _ _ _ Hh Hd)).
    eapply view_setitem_ok; eauto.
  - now rewrite (poke_same _ _ _ _ _ Hh Hd).
Qed.

Lemma center_ok (w : world) a i x :
  heap w !! center_of_table (self w) = Some a -> buf a !! i = Some x ->
  center i w = (Ok x, w).
Proof.
  intros Ha Hx. unfold center, attr, get, bind.
  eapply getitem_ok; eauto.
Qed.

End Exec.

(** ** The workspace-limiting policy *)

Section Limit.

Context {Internal TaskState : Type}.

Local Abbreviation world := (world Internal TaskState).

Lemma attr_ok {A} (f : Base -> A) (w : world) : attr f w = (Ok (f (self w)), w).
Proof. reflexivity. Qed.

(** The world after one more clamp: the view holds the updated elements,
    every other array and every other component is as before. *)
Lemma poke_step v xs i x (w : world) c a :
  holds v xs w ->
  base v <> c ->
  heap w !! c = Some a ->
  holds v (<[i := x]> xs) (poke v i x w) /\ heap (poke v i x w) !! c = Some a.
Proof.
  intros Hh Hne Hc. split; [now apply poke_holds|].
  rewrite poke_other by congruence. exact Hc.
Qed.

(** What [_limit_gripper] does to the view it is given: each axis goes
    through its two guarded clamps in turn, nothing but the base array of the
    view changes, and the view itself is what the method returns. *)
Lemma limit_gripper_run p v (w : world) ca cx cy d0 d1 d2 :
  heap w !! center_of_table (self w) = Some ca ->
  buf ca !! 0%nat = Some cx ->
  buf ca !! 1%nat = Some cy ->
  base v <> center_of_table (self w) ->
  holds v [d0; d1; d2] w ->
  exists w',
    _limit_gripper p v w = (Ok v, w') /\
    holds v [clamp_seq (cx - 0.105 - 0.3) (cx - 0.105 + 0.15) (vx p) d0;
             clamp_seq (cy - 0.3) (cy + 0.3) (vy p) d1;
             clamp_seq (min_z (self w)) (max_z (self w)) (vz p) d2] w' /\
    (forall l, l <> base v -> heap w' !! l = heap w !! l) /\
    self w' = self w /\ data w' = data w /\ task w' = task w /\
    offwidth w' = offwidth w /\ offheight w' = offheight w /\
    trace w' = trace w.
Proof.
  intros Hc H0 H1 Hne Hh.
  set (c := center_of_table (self w)) in *.
  set (x1 := if Py.gtb (vx p) (cx - 0.105 + 0.15) then Py.min d0 0 else d0).
  set (x2 := if Py.ltb (vx p) (cx - 0.105 - 0.3) then Py.max x1 0 else x1).
  set (y1 := if Py.gtb (vy p) (cy + 0.3) then Py.min d1 0 else d1).
  set (y2 := if Py.ltb (vy p) (cy - 0.3) then Py.max y1 0 else y1).
  set (z1 := if Py.gtb (vz p) (max_z (self w)) then Py.min d2 0 else d2).
  set (z2 := if Py.ltb (vz p) (min_z (self w)) then Py.max z1 0 else z1).
  set (w1 := poke v 0 x1 w).
  set (w2 := poke v 0 x2 w1).
  set (w3 := poke v 1 y1 w2).
  set (w4 := poke v 1 y2 w3).
  set (w5 := poke v 2 z1 w4).
  set (w6 := poke v 2 z2 w5).
  destruct (poke_step v _ 0 x1 w c ca Hh Hne Hc) as [Hh1 Hc1]. fold w1 in Hh1, Hc1.
  destruct (poke_step v _ 0 x2 w1 c ca Hh1 Hne Hc1) as [Hh2 Hc2]. fold w2 in Hh2, Hc2.
  destruct (poke_step v _ 1 y1 w2 c ca Hh2 Hne Hc2) as [Hh3 Hc3]. fold w3 in Hh3, Hc3.
  destruct (poke_step v _ 1 y2 w3 c ca Hh3 Hne Hc3) as [Hh4 Hc4]. fold w4 in Hh4, Hc4.
  destruct (poke_step v _ 2 z1 w4 c ca Hh4 Hne Hc4) as [Hh5 Hc5]. fold w5 in Hh5, Hc5.
  destruct (poke_step v _ 2 z2 w5 c ca Hh5 Hne Hc5) as [Hh6 Hc6]. fold w6 in Hh6, Hc6.
  cbn in Hh1, Hh2, Hh3, Hh4, Hh5, Hh6.
  exists w6. split; [|split; [exact Hh6|]].
  - unfold _limit_gripper.
    rewrite (bind_ok _ _ w _ _ (center_ok w ca 0 cx Hc H0)).
    rewrite (bind_ok _ _ w _ _ (clamp_run _ _ v _ 0 d0 w Hh eq_refl)). fold x1 w1.
    rewrite (bind_ok _ _ w1 _ _ (center_ok w1 ca 0 cx Hc1 H0)).
    rewrite (bind_ok _ _ w1 _ _ (clamp_run _ _ v _ 0 x1 w1 Hh1 eq_refl)). fold x2 w2.
    rewrite (bind_ok _ _ w2 _ _ (center_ok w2 ca 1 cy Hc2 H1)).
    rewrite (bind_ok _ _ w2 _ _ (clamp_run _ _ v _ 1 d1 w2 Hh2 eq_refl)). fold y1 w3.
    rewrite (bind_ok _ _ w3 _ _ (center_ok w3 ca 1 cy Hc3 H1)).
    rewrite (bind_ok _ _ w3 _ _ (clamp_run _ _ v _ 1 y1 w3 Hh3 eq_refl)). fold y2 w4.
    rewrite (bind_ok _ _ w4 _ _ (attr_ok max_z w4)).
    rewrite (bind_ok _ _ w4 _ _ (clamp_run _ _ v _ 2 d2 w4 Hh4 eq_refl)).
    change (max_z (self w4)) with (max_z (self w)). fold z1 w5.
    rewrite (bind_ok _ _ w5 _ _ (attr_ok min_z w5)).
    rewrite (bind_ok _ _ w5 _ _ (clamp_run _ _ v _ 2 z1 w5 Hh5 eq_refl)).
    change (min_z (self w5)) with (min_z (self w)). fold z2 w6.
    reflexivity.
  - split; [|repeat split].
    intros l Hl. unfold w6, w5, w4, w3, w2, w1.
    now rewrite !poke_other by exact Hl.
Qed.

End Limit.

Section LimitSpec.

Context {Internal TaskState : Type}.

Local Abbreviation world := (world Internal TaskState).

Lemma view_values_holds v xs (w : world) :
  view_values v w = (Ok xs, w) -> holds v xs w.
Proof.
  unfold view_values, bind, load. intros E.
  destruct (heap w !! base v) as [a|] eqn:Ha; cbn in E; [|discriminate].
  exists a. split; [exact Ha|]. unfold ret in E. congruence.
Qed.

(** With the lower bound below the upper one the two writes of an axis never
    both happen, and the code's sequence is the specification's interval
    clamp, whichever fractions denote the bounds. *)
Lemma clamp_seq_spec lower upper lower' upper' pos d :
  lower == lower' -> upper == upper' -> lower <= upper ->
  clamp_seq lower upper pos d = clamp_delta lower' upper' pos d.
Proof.
  intros El Eu Hle. unfold clamp_seq, clamp_delta.
  rewrite <- (PyFacts.gtb_proper pos upper upper' Eu).
  rewrite <- (PyFacts.ltb_proper pos lower lower' El).
  destruct (Py.gtb pos upper) eqn:Hu; destruct (Py.ltb pos lower) eqn:Hl.
  - apply PyFacts.gtb_gt in Hu. apply PyFacts.ltb_lt in Hl.
    exfalso. apply (Qlt_irrefl pos).
    eapply Qlt_trans; [exact Hl|]. eapply Qle_lt_trans; eauto.
  - apply PyFacts.min_0.
  - apply PyFacts.max_0.
  - reflexivity.
Qed.

Lemma x_upper cx : cx - 0.105 + 0.15 == cx + 0.045.
Proof. field. Qed.

Lemma x_lower cx : cx - 0.105 - 0.3 == cx - 0.405.
Proof. field. Qed.

Lemma x_ordered cx : cx - 0.105 - 0.3 <= cx - 0.105 + 0.15.
Proof.
  apply Qplus_le_r. discriminate.
Qed.

Lemma y_ordered cy : cy - 0.3 <= cy + 0.3.
Proof.
  apply Qplus_le_r. discriminate.
Qed.

(** The three cases of one axis, read off the interval clamp. *)
Lemma clamp_delta_cases lower upper pos d :
  lower <= upper ->
  let d' := clamp_delta lower upper pos d in
  (upper < pos -> d' = Qmin d 0 /\ d' <= 0) /\
  (pos < lower -> d' = Qmax d 0 /\ 0 <= d') /\
  (lower <= pos -> pos <= upper -> d' = d).
Proof.
  intros Hle d'. subst d'. unfold clamp_delta. repeat split.
  - apply PyFacts.gtb_gt in H. now rewrite H.
  - apply PyFacts.gtb_gt in H. rewrite H. apply PyFacts.min_0_nonpos.
  - assert (Hu : Py.gtb pos upper = false).
    { apply PyFacts.gtb_le. apply Qlt_le_weak. eapply Qlt_le_trans; eauto. }
    apply PyFacts.ltb_lt in H. now rewrite Hu, H.
  - assert (Hu : Py.gtb pos upper = false).
    { apply PyFacts.gtb_le. apply Qlt_le_weak. eapply Qlt_le_trans; eauto. }
    apply PyFacts.ltb_lt in H. rewrite Hu, H. apply PyFacts.max_0_nonneg.
  - intros Hlo Hhi. apply PyFacts.gtb_le in Hhi. apply PyFacts.ltb_ge in Hlo.
    now rewrite Hhi, Hlo.
Qed.

(** C2: for every gripper position [p] and every requested delta
    [(d0, d1, d2)] held by the view handed to [_limit_gripper], the method
    returns that view, and afterwards it holds a delta decided axis by axis:
    where the position exceeds the upper bound (x: [cx - 0.105 + 0.15], y:
    [cy + 0.3], z: [max_z = 1.2]) it is [min(d, 0)], hence not positive;
    where the position is below the lower bound (x: [cx - 0.105 - 0.3], y:
    [cy - 0.3], z: [min_z = 0.2]) it is [max(d, 0)], hence not negative;
    otherwise it is the delta itself.  Equivalently it is the interval clamp
    of the specification with the bounds x in [cx - 0.405, cx + 0.045], y in
    [cy - 0.3, cy + 0.3], z in [0.2, 1.2]. *)
Theorem limit_gripper_clamps_each_axis :
  forall (w : world) (p : vec3) (v : view) (cx cy cz d0 d1 d2 : Q),
    heap w !! center_of_table (self w) = Some (array1 [cx; cy; cz]) ->
    max_z (self w) = 1.2 ->
    min_z (self w) = 0.2 ->
    base v <> center_of_table (self w) ->
    view_values v w = (Ok [d0; d1; d2], w) ->
    exists w' e0 e1 e2,
      _limit_gripper p v w = (Ok v, w') /\
      view_values v w' = (Ok [e0; e1; e2], w') /\
      (cx - 0.105 + 0.15 < vx p -> e0 = Qmin d0 0 /\ e0 <= 0) /\
      (vx p < cx - 0.105 - 0.3 -> e0 = Qmax d0 0 /\ 0 <= e0) /\
      (cx - 0.105 - 0.3 <= vx p -> vx p <= cx - 0.105 + 0.15 -> e0 = d0) /\
      (cy + 0.3 < vy p -> e1 = Qmin d1 0 /\ e1 <= 0) /\
      (vy p < cy - 0.3 -> e1 = Qmax d1 0 /\ 0 <= e1) /\
      (cy - 0.3 <= vy p -> vy p <= cy + 0.3 -> e1 = d1) /\
      (max_z (self w) < vz p -> e2 = Qmin d2 0 /\ e2 <= 0) /\
      (vz p < min_z (self w) -> e2 = Qmax d2 0 /\ 0 <= e2) /\
      (min_z (self w) <= vz p -> vz p <= max_z (self w) -> e2 = d2) /\
      [e0; e1; e2] = workspace_limit cx cy p [d0; d1; d2] /\
      cx - 0.105 + 0.15 == cx + 0.045 /\
      cx - 0.105 - 0.3 == cx - 0.405.
Proof.
  intros w p v cx cy cz d0 d1 d2 Hc Hhi Hlo Hne Hv.
  apply view_values_holds in Hv.
  destruct (limit_gripper_run p v w _ cx cy d0 d1 d2 Hc eq_refl eq_refl Hne Hv)
    as (w' & Hrun & Hh & _).
  rewrite Hhi, Hlo in *.
  rewrite (clamp_seq_spec _ _ _ _ (vx p) d0 (x_lower cx) (x_upper cx) (x_ordered cx)) in Hh.
  rewrite (clamp_seq_spec _ _ (cy - 0.3) (cy + 0.3) (vy p) d1) in Hh
    by (reflexivity || apply y_ordered).
  rewrite (clamp_seq_spec _ _ 0.2 1.2 (vz p) d2) in Hh
    by (reflexivity || discriminate).
  assert (Hx : cx - 0.405 <= cx + 0.045) by (apply Qplus_le_r; discriminate).
  assert (Hz : 0.2 <= 1.2) by discriminate.
  destruct (clamp_delta_cases _ _ (vx p) d0 Hx) as (X1 & X2 & X3).
  destruct (clamp_delta_cases _ _ (vy p) d1 (y_ordered cy)) as (Y1 & Y2 & Y3).
  destruct (clamp_delta_cases _ _ (vz p) d2 Hz) as (Z1 & Z2 & Z3).
  exists w'. do 3 eexists.
  split; [exact Hrun|].
  split; [apply view_values_ok; exact Hh|].
  split; [intros H; apply X1; now rewrite <- (x_upper cx)|].
  split; [intros H; apply X2; now rewrite <- (x_lower cx)|].
  split; [intros H1 H2; apply X3;
          [now rewrite <- (x_lower cx) | now rewrite <- (x_upper cx)]|].
  repeat (split; [assumption|]).
  split; [reflexivity|].
  split; [apply x_upper | apply x_lower].
Qed.

End LimitSpec.

(** In the toy world the gripper is beyond the upper x bound and below the
    lower z bound: of the deltas [(0.5, 0.25, -1)] the first and the third
    are zeroed, the second passes. *)
Lemma limit_gripper_clamps_each_axis_witness :
  exists w',
    _limit_gripper (Vec3 1.8 0.3 0.1) (View Toy.action 0 3) Toy.world1
      = (Ok (View Toy.action 0 3), w') /\
    view_values (View Toy.action 0 3) w' = (Ok [0; 0.25; 0], w').
Proof.
  destruct (limit_gripper_clamps_each_axis Toy.world1 (Vec3 1.8 0.3 0.1)
              (View Toy.action 0 3) 1.655 0.3 0.63625 0.5 0.25 (-1))
    as (w' & e0 & e1 & e2 & Hrun & Hval & _ & _ & _ & _ & _ & _ & _ & _ & _ & Hspec & _).
  - vm_compute. reflexivity.
  - reflexivity.
  - reflexivity.
  - vm_compute. discriminate.
  - vm_compute. reflexivity.
  - exists w'. split; [exact Hrun|].
    rewrite Hval. rewrite Hspec. reflexivity.
Defined.

(** ** [_limit_gripper], write by write *)

Section LimitWrites.

Context {Internal TaskState : Type}.

Local Abbreviation world := (world Internal TaskState).

(** The world [_limit_gripper] leaves is the one after its six writes. *)
Lemma limit_gripper_writes p v (w : world) ca cx cy d0 d1 d2 :
  heap w !! center_of_table (self w) = Some ca ->
  buf ca !! 0%nat = Some cx ->
  buf ca !! 1%nat = Some cy ->
  base v <> center_of_table (self w) ->
  holds v [d0; d1; d2] w ->
  _limit_gripper p v w
  = (Ok v, limit_world v (limit_writes cx cy (max_z (self w)) (min_z (self w)) p d0 d1 d2) w).
Proof.
  intros Hc H0 H1 Hne Hh.
  set (c := center_of_table (self w)) in *.
  unfold limit_writes, limit_world.
  set (x1 := if Py.gtb (vx p) (cx - 0.105 + 0.15) then Py.min d0 0 else d0).
  set (x2 := if Py.ltb (vx p) (cx - 0.105 - 0.3) then Py.max x1 0 else x1).
  set (y1 := if Py.gtb (vy p) (cy + 0.3) then Py.min d1 0 else d1).
  set (y2 := if Py.ltb (vy p) (cy - 0.3) then Py.max y1 0 else y1).
  set (z1 := if Py.gtb (vz p) (max_z (self w)) then Py.min d2 0 else d2).
  set (z2 := if Py.ltb (vz p) (min_z (self w)) then Py.max z1 0 else z1).
  set (w1 := poke v 0 x1 w).
  set (w2 := poke v 0 x2 w1).
  set (w3 := poke v 1 y1 w2).
  set (w4 := poke v 1 y2 w3).
  set (w5 := poke v 2 z1 w4).
  destruct (poke_step v _ 0 x1 w c ca Hh Hne Hc) as [Hh1 Hc1]. fold w1 in Hh1, Hc1.
  destruct (poke_step v _ 0 x2 w1 c ca Hh1 Hne Hc1) as [Hh2 Hc2]. fold w2 in Hh2, Hc2.
  destruct (poke_step v _ 1 y1 w2 c ca Hh2 Hne Hc2) as [Hh3 Hc3]. fold w3 in Hh3, Hc3.
  destruct (poke_step v _ 1 y2 w3 c ca Hh3 Hne Hc3) as [Hh4 Hc4]. fold w4 in Hh4, Hc4.
  destruct (poke_step v _ 2 z1 w4 c ca Hh4 Hne Hc4) as [Hh5 Hc5]. fold w5 in Hh5, Hc5.
  cbn in Hh1, Hh2, Hh3, Hh4, Hh5.
  unfold _limit_gripper.
  rewrite (bind_ok _ _ w _ _ (center_ok w ca 0 cx Hc H0)).
  rewrite (bind_ok _ _ w _ _ (clamp_run _ _ v _ 0 d0 w Hh eq_refl)). fold x1 w1.
  rewrite (bind_ok _ _ w1 _ _ (center_ok w1 ca 0 cx Hc1 H0)).
  rewrite (bind_ok _ _ w1 _ _ (clamp_run _ _ v _ 0 x1 w1 Hh1 eq_refl)). fold x2 w2.
  rewrite (bind_ok _ _ w2 _ _ (center_ok w2 ca 1 cy Hc2 H1)).
  rewrite (bind_ok _ _ w2 _ _ (clamp_run _ _ v _ 1 d1 w2 Hh2 eq_refl)). fold y1 w3.
  rewrite (bind_ok _ _ w3 _ _ (center_ok w3 ca 1 cy Hc3 H1)).
  rewrite (bind_ok _ _ w3 _ _ (clamp_run _ _ v _ 1 y1 w3 Hh3 eq_refl)). fold y2 w4.
  rewrite (bind_ok _ _ w4 _ _ (attr_ok max_z w4)).
  rewrite (bind_ok _ _ w4 _ _ (clamp_run _ _ v _ 2 d2 w4 Hh4 eq_refl)).
  change (max_z (self w4)) with (max_z (self w)). fold z1 w5.
  rewrite (bind_ok _ _ w5 _ _ (attr_ok min_z w5)).
  rewrite (bind_ok _ _ w5 _ _ (clamp_run _ _ v _ 2 z1 w5 Hh5 eq_refl)).
  change (min_z (self w5)) with (min_z (self w)). fold z2.
  reflexivity.
Qed.

(** The view after the six writes. *)
Lemma limit_world_holds v ws (w : world) d0 d1 d2 :
  holds v [d0; d1; d2] w ->
  holds v [snd (fst (fst (fst (fst ws)))); snd (fst (fst ws)); snd ws] (limit_world v ws w).
Proof.
  intros Hh. destruct ws as [[[[[x1 x2] y1] y2] z1] z2]. unfold limit_world. cbn [fst snd].
  pose proof (poke_holds v _ 0 x1 w Hh) as H1.
  pose proof (poke_holds v _ 0 x2 _ H1) as H2.
  pose proof (poke_holds v _ 1 y1 _ H2) as H3.
  pose proof (poke_holds v _ 1 y2 _ H3) as H4.
  pose proof (poke_holds v _ 2 z1 _ H4) as H5.
  pose proof (poke_holds v _ 2 z2 _ H5) as H6.
  exact H6.
Qed.

(** Each guarded clamp passes the delta or cancels it. *)
Lemma min_0_cases d : Py.min d 0 = d \/ Py.min d 0 = 0.
Proof. unfold Py.min. destruct (Py.ltb 0 d); auto. Qed.

Lemma max_0_cases d : Py.max d 0 = d \/ Py.max d 0 = 0.
Proof. unfold Py.max. destruct (Py.gtb 0 d); auto. Qed.

Lemma min_0_idem d : Py.min (Py.min d 0) 0 = Py.min d 0.
Proof.
  unfold Py.min at 2 3. destruct (Py.ltb 0 d) eqn:E; [reflexivity|].
  unfold Py.min. now rewrite E.
Qed.

Lemma max_0_idem d : Py.max (Py.max d 0) 0 = Py.max d 0.
Proof.
  unfold Py.max at 2 3. destruct (Py.gtb 0 d) eqn:E; [reflexivity|].
  unfold Py.max. now rewrite E.
Qed.

Lemma clamp_seq_cases lower upper pos d :
  clamp_seq lower upper pos d = d \/ clamp_seq lower upper pos d = 0.
Proof.
  unfold clamp_seq. destruct (Py.gtb pos upper); destruct (Py.ltb pos lower); auto.
  - destruct (min_0_cases d) as [E|E]; rewrite E.
    + apply max_0_cases.
    + right. reflexivity.
  - apply min_0_cases.
  - apply max_0_cases.
Qed.

End LimitWrites.

(** ** [_apply_action] and [step] *)

Section Step.

Context {Internal TaskState : Type}.
Context (P : Physics Internal) (T : Task Internal TaskState).

Local Abbreviation world := (world Internal TaskState).

Lemma bind_fails {A B} (m : M world A) (k : A -> M world B) (w w' : world) e :
  m w = (Raise e, w') -> bind m k w = (Raise e, w').
Proof. intros E. unfold bind. now rewrite E. Qed.

Lemma getattr_ok {A} (f : Base -> option A) (w : world) a :
  f (self w) = Some a -> getattr f w = (Ok a, w).
Proof. intros E. unfold getattr. now rewrite E. Qed.

Lemma getattr_missing {A} (f : Base -> option A) (w : world) :
  f (self w) = None -> getattr f w = (Raise AttributeError, w).
Proof. intros E. unfold getattr. now rewrite E. Qed.

Lemma copy_ok (w : world) l a :
  heap w !! l = Some a ->
  copy l w = (Ok (fresh (dom (heap w))), set_heap (insert (fresh (dom (heap w))) a) w).
Proof.
  intros Ha. unfold copy. now rewrite (bind_ok _ _ _ _ _ (load_ok _ _ _ Ha)).
Qed.

Lemma slice_to_ok (w : world) l a n :
  heap w !! l = Some a ->
  slice_to l n w = (Ok (View l 0 (Nat.min n (length (buf a)))), w).
Proof.
  intros Ha. unfold slice_to. now rewrite (bind_ok _ _ _ _ _ (load_ok _ _ _ Ha)).
Qed.

Lemma substep_scale_ok (w : world) n :
  n_substeps (self w) = n -> n <> 0%Z ->
  substep_scale w = (Ok (1 / inject_Z n), w).
Proof.
  intros Hn Hz. unfold substep_scale.
  rewrite (bind_ok _ _ _ _ _ (attr_ok n_substeps w)). rewrite Hn.
  apply Z.eqb_neq in Hz. now rewrite Hz.
Qed.

(** The constructor's bounds are the specification's intervals. *)
Lemma constructed_limits p d0 d1 d2 :
  [clamp_seq (1.655 - 0.105 - 0.3) (1.655 - 0.105 + 0.15) (vx p) d0;
   clamp_seq (0.3 - 0.3) (0.3 + 0.3) (vy p) d1;
   clamp_seq 0.2 1.2 (vz p) d2]
  = workspace_limit 1.655 0.3 p [d0; d1; d2].
Proof.
  unfold workspace_limit.
  rewrite (clamp_seq_spec _ _ (1.655 - 0.405) (1.655 + 0.045) (vx p) d0)
    by (reflexivity || discriminate).
  rewrite (clamp_seq_spec _ _ (0.3 - 0.3) (0.3 + 0.3) (vy p) d1)
    by (reflexivity || discriminate).
  rewrite (clamp_seq_spec _ _ 0.2 1.2 (vz p) d2)
    by (reflexivity || discriminate).
  reflexivity.
Qed.

(** A write through a view of an array the store has just received. *)
Lemma poke_inserted (w : world) v i x a :
  poke v i x (set_heap (insert (base v) a) w)
  = set_heap (insert (base v) (NDArray (shape a) (<[(off v + i)%nat := x]> (buf a)))) w.
Proof.
  unfold poke, set_heap. cbn [heap self data task offwidth offheight trace].
  rewrite alter_insert_eq. reflexivity.
Qed.

(** Six writes through a view of the first three elements of a fresh
    four-element array leave one new array in the store. *)
Lemma limit_world_copy (w : world) l sh x1 x2 y1 y2 z1 z2 a0 a1 a2 a3 :
  limit_world (View l 0 3) (x1, x2, y1, y2, z1, z2)
              (set_heap (insert l (NDArray sh [a0; a1; a2; a3])) w)
  = set_heap (insert l (NDArray sh [x2; y2; z2; a3])) w.
Proof.
  unfold limit_world.
  change l with (base (View l 0 3)) at 7 8.
  rewrite !poke_inserted. reflexivity.
Qed.

(** On the copy of an action these are the limited deltas and the gripper
    command. *)
Lemma clamped_world_eq (w : world) l p a0 a1 a2 a3 :
  limit_world (View l 0 3) (limit_writes 1.655 0.3 1.2 0.2 p a0 a1 a2)
              (set_heap (insert l (NDArray [4%nat] [a0; a1; a2; a3])) w)
  = set_heap (insert l (NDArray [4%nat] (workspace_limit 1.655 0.3 p [a0; a1; a2] ++ [a3]))) w.
Proof.
  rewrite <- (constructed_limits p a0 a1 a2).
  unfold limit_writes. apply limit_world_copy.
Qed.

(** [_apply_action] on a shape-[(4,)] action of a constructed instance: the
    copy is made and clamped; then [self.sim] is read, and the read decides
    whether anything is forwarded. *)
Lemma apply_action_cases (w : world) action rot a0 a1 a2 a3 :
  constructed rot w ->
  heap w !! action = Some (NDArray [4%nat] [a0; a1; a2; a3]) ->
  _apply_action P action w =
    match sim (self w) with
    | None => (Raise AttributeError, clamped_copy P w a0 a1 a2 a3)
    | Some _ =>
        (Ok tt,
         log (ev_mocap_apply_action (control P w rot a0 a1 a2 a3))
             (set_data (fun d => mocap_apply_action P d (control P w rot a0 a1 a2 a3))
                       (clamped_copy P w a0 a1 a2 a3)))
    end.
Proof.
  intros (Hr & Hc & Hhi & Hlo & Hn & _) Ha.
  set (a := NDArray [4%nat] [a0; a1; a2; a3]) in *.
  set (l := fresh (dom (heap w))).
  set (w1 := set_heap (insert l a) w).
  set (p := get_site_xpos P (data w) "grasp").
  assert (Hl : forall l', is_Some (heap w !! l') -> l <> l').
  { intros l' Hs E. apply (is_fresh (dom (heap w))). fold l. rewrite E.
    now apply elem_of_dom. }
  assert (Hla : heap w1 !! l = Some a) by apply lookup_insert_eq.
  assert (Hc1 : heap w1 !! center_of_table (self w1)
                = Some (array1 [1.655; 0.3; 0.63625])).
  { cbn. rewrite lookup_insert_ne; [exact Hc|]. apply Hl. eauto. }
  assert (Hne : base (View l 0 3) <> center_of_table (self w1)).
  { cbn. apply Hl. eauto. }
  assert (Hv : holds (View l 0 3) [a0; a1; a2] w1).
  { exists a. split; [exact Hla | reflexivity]. }
  pose proof (limit_gripper_writes p (View l 0 3) w1 _ 1.655 0.3 a0 a1 a2
                Hc1 eq_refl eq_refl Hne Hv) as Hrun.
  pose proof (limit_world_holds (View l 0 3)
                (limit_writes 1.655 0.3 (max_z (self w1)) (min_z (self w1)) p a0 a1 a2)
                w1 a0 a1 a2 Hv) as Hh2.
  change (self w1) with (self w) in Hrun, Hh2. rewrite Hhi, Hlo in Hrun, Hh2.
  unfold w1, a in Hrun, Hh2. rewrite clamped_world_eq in Hrun, Hh2.
  fold (clamped_copy P w a0 a1 a2 a3) in Hrun, Hh2.
  set (w2 := clamped_copy P w a0 a1 a2 a3) in *.
  assert (Hvals :
            [(limit_writes 1.655 0.3 1.2 0.2 p a0 a1 a2).1.1.1.1.2;
             (limit_writes 1.655 0.3 1.2 0.2 p a0 a1 a2).1.1.2;
             (limit_writes 1.655 0.3 1.2 0.2 p a0 a1 a2).2]
            = workspace_limit 1.655 0.3 p [a0; a1; a2]).
  { rewrite <- (constructed_limits p a0 a1 a2). reflexivity. }
  rewrite Hvals in Hh2.
  assert (Hr2 : heap w2 !! gripper_rotation (self w2) = Some (array1 rot)).
  { cbn. rewrite lookup_insert_ne; [exact Hr|]. apply Hl. eauto. }
  unfold _apply_action.
  rewrite (bind_ok _ _ w _ _ (load_ok w action a Ha)).
  rewrite (bind_ok _ _ w _ _ (assert_true w)).
  rewrite (bind_ok _ _ w _ _ (copy_ok w action a Ha)). fold l w1.
  rewrite (bind_ok _ _ w1 _ _ (slice_to_ok w1 l a 3 Hla)).
  rewrite (bind_ok _ _ w1 _ _ (getitem_ok w1 l a 3 a3 Hla eq_refl)).
  unfold get at 1. unfold bind at 1. change (data w1) with (data w). fold p.
  change (Nat.min 3 (length (buf a))) with 3%nat.
  rewrite (bind_ok _ _ w1 _ _ Hrun).
  rewrite (bind_ok _ _ w2 _ _ (substep_scale_ok w2 20 Hn ltac:(discriminate))).
  rewrite (bind_ok _ _ w2 _ _ (view_values_ok _ _ w2 Hh2)).
  change (sim (self w)) with (sim (self w2)).
  destruct (sim (self w2)) as [s|] eqn:Es.
  - rewrite (bind_ok _ _ w2 _ _ (getattr_ok sim w2 s Es)).
    rewrite (bind_ok _ _ w2 _ _ (attr_ok gripper_rotation w2)).
    rewrite (bind_ok _ _ w2 _ _ (load_ok w2 _ _ Hr2)).
    unfold lift at 1. unfold bind at 1.
    unfold as_1d. cbn [shape buf array1].
    rewrite bool_decide_eq_true_2 by reflexivity.
    unfold control. rewrite Hn. reflexivity.
  - apply (bind_fails _ _ w2 w2). now apply getattr_missing.
Qed.

Lemma modify_ok (f : world -> world) (w : world) : modify f w = (Ok tt, f w).
Proof. reflexivity. Qed.

Lemma for_range_modify n (f : world -> world) (w : world) :
  for_range n (modify f) w = (Ok tt, Nat.iter n f w).
Proof.
  revert w. induction n as [|n IH]; intros w; [reflexivity|].
  cbn [for_range]. rewrite (bind_ok _ _ _ _ _ (modify_ok f w)).
  rewrite IH. f_equal.
  change (Nat.iter (S n) f w) with (f (Nat.iter n f w)).
  apply Nat.iter_swap.
Qed.

Lemma call_hook_ok name (h : hook Internal TaskState) (w : world) v s :
  h (task w, data w) = (Ok v, s) ->
  call_hook name h w = (Ok v, log (ev_hook name) (set_sim s w)).
Proof. intros E. unfold call_hook. now rewrite E. Qed.

Lemma call_sim_step_ok (w : world) s :
  sim (self w) = Some s ->
  call_sim_step P w = (Ok tt, log ev_sim_step (set_data (sim_step P) w)).
Proof.
  intros Es. unfold call_sim_step.
  now rewrite (bind_ok _ _ w _ _ (getattr_ok sim w s Es)).
Qed.

Lemma call_sim_forward_ok (w : world) s :
  sim (self w) = Some s ->
  call_sim_forward P w = (Ok tt, log ev_sim_forward (set_data (sim_forward P) w)).
Proof.
  intros Es. unfold call_sim_forward.
  now rewrite (bind_ok _ _ w _ _ (getattr_ok sim w s Es)).
Qed.

Lemma two_sim_steps (w : world) s :
  sim (self w) = Some s ->
  for_range 2 (call_sim_step P) w
  = (Ok tt,
     log ev_sim_step (set_data (sim_step P) (log ev_sim_step (set_data (sim_step P) w)))).
Proof.
  intros Es. cbn [for_range].
  rewrite (bind_ok _ _ w _ _ (call_sim_step_ok w s Es)).
  set (w1 := log ev_sim_step (set_data (sim_step P) w)).
  assert (E1 : sim (self w1) = Some s) by exact Es.
  now rewrite (bind_ok _ _ w1 _ _ (call_sim_step_ok w1 s E1)).
Qed.

(** One engine call on a world: new buffers, one more log entry. *)
Lemma log_set_data e (f : mjData Internal -> mjData Internal) h s d
    (t : TaskState) ow oh tr :
  log e (set_data f (mkWorld h s d t ow oh tr)) = mkWorld h s (f d) t ow oh (tr ++ [e]).
Proof. reflexivity. Qed.

(** The world after the control, two physics steps and a kinematics pass. *)
Lemma stepped_world (w : world) ctrl :
  log ev_sim_forward
    (set_data (sim_forward P)
       (log ev_sim_step
          (set_data (sim_step P)
             (log ev_sim_step
                (set_data (sim_step P)
                   (log (ev_mocap_apply_action ctrl)
                      (set_data (fun d => mocap_apply_action P d ctrl) w)))))))
  = mkWorld (heap w) (self w) (stepped P (data w) ctrl) (task w) (offwidth w)
            (offheight w)
            (trace w ++ [ev_mocap_apply_action ctrl; ev_sim_step; ev_sim_step;
                         ev_sim_forward]).
Proof.
  destruct w as [h s d t ow oh tr]. unfold stepped.
  rewrite !log_set_data. cbn [app]. rewrite <- !app_assoc. reflexivity.
Qed.

(** [step] on a valid action of a constructed instance: without a [sim] it
    raises inside [_apply_action]; with one it reaches the hooks after the
    control, two physics steps and a kinematics pass. *)
Lemma step_cases (w : world) action rot a0 a1 a2 a3 :
  constructed rot w ->
  heap w !! action = Some (NDArray [4%nat] [a0; a1; a2; a3]) ->
  action_space_contains P (NDArray [4%nat] [a0; a1; a2; a3]) = true ->
  let ctrl := control P w rot a0 a1 a2 a3 in
  step P T action w =
    match sim (self w) with
    | None => (Raise AttributeError, clamped_copy P w a0 a1 a2 a3)
    | Some _ =>
        step_hooks T
          (mkWorld (heap (clamped_copy P w a0 a1 a2 a3)) (self w)
                   (stepped P (data w) ctrl) (task w) (offwidth w) (offheight w)
                   (trace w ++ [ev_mocap_apply_action ctrl; ev_sim_step; ev_sim_step;
                                ev_sim_forward]))
    end.
Proof.
  intros Hc Ha Hin ctrl.
  pose proof (apply_action_cases w action rot a0 a1 a2 a3 Hc Ha) as Hrun.
  fold ctrl in Hrun.
  unfold step.
  rewrite (bind_ok _ _ w _ _ (load_ok w action _ Ha)).
  rewrite (bind_ok _ _ w _ _ (assert_true w)).
  cbv beta. rewrite Hin.
  rewrite (bind_ok _ _ w _ _ (assert_true w)).
  destruct (sim (self w)) as [s|] eqn:Es.
  - rewrite (bind_ok _ _ w _ _ Hrun).
    set (w1 := log _ (set_data _ (clamped_copy P w a0 a1 a2 a3))).
    assert (E1 : sim (self w1) = Some s) by exact Es.
    rewrite (bind_ok _ _ w1 _ _ (two_sim_steps w1 s E1)).
    set (w3 := log ev_sim_step (set_data (sim_step P) _)).
    assert (E3 : sim (self w3) = Some s) by exact Es.
    unfold _step_callback.
    rewrite (bind_ok _ _ w3 _ _ (call_sim_forward_ok w3 s E3)).
    unfold step_hooks. f_equal.
    unfold w3, w1. rewrite stepped_world. reflexivity.
  - now rewrite (bind_fails _ _ w _ _ Hrun).
Qed.

(** C5 (as the code has it): the control vector is never forwarded.
    [_apply_action] copies the action and clamps its copy, and then the call
    [mocap.apply_action(self.sim, ...)] reads [self.sim] before anything
    else.  On an instance without that attribute the read raises
    [AttributeError]: the log gains no entry, the simulation buffers are as
    they were, and a [step] with a valid action fails the same way, with
    nothing forwarded. *)
Theorem apply_action_raises_before_it_forwards :
  forall (w : world) (action : loc) (rot : list Q) (a0 a1 a2 a3 : Q),
    constructed rot w ->
    sim (self w) = None ->
    heap w !! action = Some (NDArray [4%nat] [a0; a1; a2; a3]) ->
    action_space_contains P (NDArray [4%nat] [a0; a1; a2; a3]) = true ->
    (exists w',
        _apply_action P action w = (Raise AttributeError, w') /\
        trace w' = trace w /\
        data w' = data w) /\
    fst (step P T action w) = Raise AttributeError /\
    forwarded (trace (snd (step P T action w))) = forwarded (trace w).
Proof.
  intros w action rot a0 a1 a2 a3 Hc Hs Ha Hin.
  pose proof (apply_action_cases w action rot a0 a1 a2 a3 Hc Ha) as Hrun.
  pose proof (step_cases w action rot a0 a1 a2 a3 Hc Ha Hin) as Hstep.
  cbv zeta in Hstep. rewrite Hs in Hrun, Hstep.
  split; [eexists; split; [exact Hrun | split; reflexivity]|].
  rewrite Hstep. split; reflexivity.
Qed.

(** C3 (as the code has it): for a valid action [step] does not return a
    tuple at all.  On an instance without the attribute [sim] it raises
    [AttributeError] inside [_apply_action]: no physics step is taken, no
    hook is called, no [done] is produced; all that is left is the clamped
    copy of the action in the store. *)
Theorem step_raises_instead_of_returning :
  forall (w : world) (action : loc) (rot : list Q) (a0 a1 a2 a3 : Q),
    constructed rot w ->
    sim (self w) = None ->
    heap w !! action = Some (NDArray [4%nat] [a0; a1; a2; a3]) ->
    action_space_contains P (NDArray [4%nat] [a0; a1; a2; a3]) = true ->
    step P T action w = (Raise AttributeError, clamped_copy P w a0 a1 a2 a3) /\
    trace (clamped_copy P w a0 a1 a2 a3) = trace w /\
    data (clamped_copy P w a0 a1 a2 a3) = data w /\
    task (clamped_copy P w a0 a1 a2 a3) = task w.
Proof.
  intros w action rot a0 a1 a2 a3 Hc Hs Ha Hin.
  pose proof (step_cases w action rot a0 a1 a2 a3 Hc Ha Hin) as Hstep.
  cbv zeta in Hstep. rewrite Hs in Hstep.
  split; [exact Hstep | repeat split].
Qed.

(** C4: an action whose shape is not [(4,)], or which the action space does
    not contain, makes [step] fail on one of its two assertions, before
    anything is copied, clamped, forwarded or simulated: the world is the one
    the call found. *)
Theorem step_rejects_an_invalid_action :
  forall (w : world) (action : loc) (a : ndarray),
    heap w !! action = Some a ->
    shape a <> [4%nat] \/ action_space_contains P a = false ->
    step P T action w = (Raise AssertionError, w).
Proof.
  intros w action a Ha Hbad. unfold step.
  rewrite (bind_ok _ _ w _ _ (load_ok w action a Ha)).
  destruct (decide (shape a = [4%nat])) as [Hs|Hs].
  - destruct Hbad as [Hbad|Hbad]; [contradiction|].
    rewrite bool_decide_eq_true_2 by exact Hs.
    rewrite (bind_ok _ _ w _ _ (assert_true w)).
    rewrite Hbad. reflexivity.
  - rewrite bool_decide_eq_false_2 by exact Hs. reflexivity.
Qed.

End Step.

(** The instance as the framework builds it has no [sim]. *)
Lemma apply_action_raises_before_it_forwards_witness :
  fst (step Toy.physics Toy.task Toy.action Built.world1) = Raise AttributeError /\
  forwarded (trace (snd (step Toy.physics Toy.task Toy.action Built.world1))) = [].
Proof.
  destruct (apply_action_raises_before_it_forwards Toy.physics Toy.task Built.world1
              Toy.action [0; 1; 0; 0] 0.5 0.25 (-1) 1)
    as (_ & Hraise & Hnone).
  - exact (init_constructed None Built.world0).
  - reflexivity.
  - vm_compute. reflexivity.
  - reflexivity.
  - split; [exact Hraise | exact Hnone].
Defined.

Lemma step_raises_instead_of_returning_witness :
  fst (step Toy.physics Toy.task Toy.action Built.world1) = Raise AttributeError.
Proof.
  destruct (step_raises_instead_of_returning Toy.physics Toy.task Built.world1
              Toy.action [0; 1; 0; 0] 0.5 0.25 (-1) 1)
    as (Hstep & _).
  - exact (init_constructed None Built.world0).
  - reflexivity.
  - vm_compute. reflexivity.
  - reflexivity.
  - now rewrite Hstep.
Defined.

(** The table-centre array has shape [(3,)]: handed to [step] as an action
    it is refused. *)
Lemma step_rejects_an_invalid_action_witness :
  step Toy.physics Toy.task 3%positive Toy.world1
    = (Raise AssertionError, Toy.world1).
Proof.
  apply (step_rejects_an_invalid_action Toy.physics Toy.task Toy.world1
           3%positive (array1 [1.655; 0.3; 0.63625])).
  - vm_compute. reflexivity.
  - left. discriminate.
Defined.

(** ** [reset] *)

Section Reset.

Context {Internal TaskState : Type}.
Context (P : Physics Internal) (T : Task Internal TaskState).

Local Abbreviation world := (world Internal TaskState).

Lemma assign_all_same (dst src : list Q) :
  length src = length dst -> assign_all dst src = Ok src.
Proof.
  intros E. unfold assign_all. apply Nat.eqb_eq in E. now rewrite E.
Qed.

(** [n] kinematics passes in a row. *)
Lemma settle_run n (w : world) :
  Nat.iter n (fun w => log ev_mj_forward (set_data (mj_forward P) w)) w
  = mkWorld (heap w) (self w) (Nat.iter n (mj_forward P) (data w)) (task w)
            (offwidth w) (offheight w) (trace w ++ replicate n ev_mj_forward).
Proof.
  induction n as [|n IH].
  - cbn. rewrite app_nil_r. now destruct w.
  - change (Nat.iter (S n) ?f ?x) with (f (Nat.iter n f x)).
    rewrite IH. unfold log, set_data. cbn. f_equal.
    rewrite <- app_assoc. f_equal.
    change (ev_mj_forward :: replicate n ev_mj_forward)
      with (replicate (S n) ev_mj_forward).
    now rewrite replicate_S_end.
Qed.

(** The world in which [_reset_sim] calls the goal hook. *)
Lemma restore_run (w : world) :
  length (initial_qpos (self w)) = length (qpos (data w)) ->
  length (initial_qvel (self w)) = length (qvel (data w)) ->
  forall {A} (k : M world A),
    (t0 <- attr initial_time ;;
     modify (set_data (with_time t0)) ;;;
     q0 <- attr initial_qpos ;;
     q <- get (fun w => qpos (data w)) ;;
     q <- lift (assign_all q q0) ;;
     modify (set_data (with_qpos q)) ;;;
     v0 <- attr initial_qvel ;;
     v <- get (fun w => qvel (data w)) ;;
     v <- lift (assign_all v v0) ;;
     modify (set_data (with_qvel v)) ;;;
     k) w
    = k (set_data (fun _ => restored w) w).
Proof.
  intros Hq Hv A k. unfold bind, attr, get, modify, lift. cbn.
  rewrite (assign_all_same _ _ Hq). cbn.
  rewrite (assign_all_same _ _ Hv). reflexivity.
Qed.

(** [reset], spelled out over what the two hooks do. *)
Lemma reset_run (w : world) :
  length (initial_qpos (self w)) = length (qpos (data w)) ->
  length (initial_qvel (self w)) = length (qvel (data w)) ->
  reset P T w =
    match _sample_goal T (task w, restored w) with
    | (Raise e, s1) =>
        (Raise e,
         mkWorld (heap w) (self w) (snd s1) (fst s1) (offwidth w) (offheight w)
                 (trace w ++ [ev_hook "_sample_goal"]))
    | (Ok _, s1) =>
        let d := Nat.iter 10 (mj_forward P) (snd s1) in
        (fst (_get_obs T (fst s1, d)),
         mkWorld (heap w) (self w)
                 (snd (snd (_get_obs T (fst s1, d))))
                 (fst (snd (_get_obs T (fst s1, d))))
                 (offwidth w) (offheight w)
                 (trace w ++ [ev_hook "_sample_goal"]
                    ++ replicate 10 ev_mj_forward ++ [ev_hook "_get_obs"]))
    end.
Proof.
  intros Hq Hv. unfold reset, _reset_sim.
  unfold bind at 1. rewrite (restore_run w Hq Hv).
  unfold bind at 1. unfold call_hook at 1. cbn [task data set_data].
  destruct (_sample_goal T (task w, restored w)) as [[g|e] s1]; [|reflexivity].
  unfold call_mj_forward.
  rewrite (bind_ok _ _ _ _ _ (for_range_modify 10 _ _)).
  rewrite settle_run. unfold ret at 1.
  unfold call_hook. cbn [task data log set_sim heap self offwidth offheight trace].
  destruct (_get_obs T _) as [r s2]. cbn.
  unfold log, set_sim. cbn. do 2 f_equal.
  rewrite <- !app_assoc. reflexivity.
Qed.

(** C6: [reset] writes the initial time, joint positions and joint
    velocities into the simulation buffers, calls the goal hook of the task in
    that state, runs exactly ten kinematics passes (no control vector is
    forwarded, no physics step is taken), and returns what the observation
    hook reports on the settled state.  It has no failure of its own: if it
    raises, one of the two hooks raised that exception, and with hooks that
    return it returns. *)
Theorem reset_restores_resamples_and_settles :
  forall w : world,
    length (initial_qpos (self w)) = length (qpos (data w)) ->
    length (initial_qvel (self w)) = length (qvel (data w)) ->
    (time (restored w) = initial_time (self w) /\
     qpos (restored w) = initial_qpos (self w) /\
     qvel (restored w) = initial_qvel (self w)) /\
    (forall g s1 obs s2,
        _sample_goal T (task w, restored w) = (Ok g, s1) ->
        _get_obs T (fst s1, Nat.iter 10 (mj_forward P) (snd s1)) = (Ok obs, s2) ->
        reset P T w =
          (Ok obs,
           mkWorld (heap w) (self w) (snd s2) (fst s2) (offwidth w) (offheight w)
                   (trace w ++ [ev_hook "_sample_goal"]
                      ++ replicate 10 ev_mj_forward ++ [ev_hook "_get_obs"]))) /\
    (forall e,
        fst (reset P T w) = Raise e ->
        fst (_sample_goal T (task w, restored w)) = Raise e \/
        exists g s1,
          _sample_goal T (task w, restored w) = (Ok g, s1) /\
          fst (_get_obs T (fst s1, Nat.iter 10 (mj_forward P) (snd s1))) = Raise e) /\
    (returns (_sample_goal T) -> returns (_get_obs T) ->
     exists obs w', reset P T w = (Ok obs, w')).
Proof.
  intros w Hq Hv. pose proof (reset_run w Hq Hv) as Hrun.
  split; [repeat split|]. split; [|split].
  - intros g s1 obs s2 Eg Eo. rewrite Hrun, Eg. cbn zeta. now rewrite Eo.
  - intros e He. rewrite Hrun in He.
    destruct (_sample_goal T (task w, restored w)) as [[g|e'] s1] eqn:Eg.
    + right. exists g, s1. split; [reflexivity | exact He].
    + left. exact He.
  - intros Hg Ho. rewrite Hrun.
    destruct (Hg (task w, restored w)) as (g & s1 & Eg). rewrite Eg. cbn zeta.
    destruct (Ho (fst s1, Nat.iter 10 (mj_forward P) (snd s1))) as (obs & s2 & Eo).
    rewrite Eo. eauto.
Qed.

Lemma settle_joints (K : kinematic P) n d :
  same_joints (Nat.iter n (mj_forward P) d) d.
Proof.
  induction n as [|n IH]; [repeat split|].
  change (Nat.iter (S n) ?f ?x) with (f (Nat.iter n f x)).
  destruct (forward_joints P K (Nat.iter n (mj_forward P) d)) as (E1 & E2 & E3).
  destruct IH as (F1 & F2 & F3). repeat split; congruence.
Qed.

Lemma same_joints_sym (d d' : mjData Internal) :
  same_joints d d' -> same_joints d' d.
Proof. intros (E1 & E2 & E3). repeat split; congruence. Qed.

Lemma same_joints_trans (d1 d2 d3 : mjData Internal) :
  same_joints d1 d2 -> same_joints d2 d3 -> same_joints d1 d3.
Proof.
  intros (E1 & E2 & E3) (F1 & F2 & F3). repeat split; congruence.
Qed.

(** C8: take two runs of one instance that reach [reset] with the same
    initial configuration and the same state of the goal generator, after
    whatever histories: the simulation buffers, the private buffers of the
    engine, the store and the log may all differ.  With an engine whose
    kinematics pass is a function of the joint state, a goal sampler fixed by
    its seed and an observation hook that only reads, [reset] followed by a
    read of [robot_state] has the same outcome in both. *)
Theorem reset_then_robot_state_is_deterministic :
  forall w1 w2 : world,
    kinematic P ->
    seeded (_sample_goal T) ->
    observer P (_get_obs T) ->
    initial_time (self w1) = initial_time (self w2) ->
    initial_qpos (self w1) = initial_qpos (self w2) ->
    initial_qvel (self w1) = initial_qvel (self w2) ->
    task w1 = task w2 ->
    length (initial_qpos (self w1)) = length (qpos (data w1)) ->
    length (initial_qvel (self w1)) = length (qvel (data w1)) ->
    length (initial_qpos (self w2)) = length (qpos (data w2)) ->
    length (initial_qvel (self w2)) = length (qvel (data w2)) ->
    fst (reset_then_robot_state P T w1) = fst (reset_then_robot_state P T w2).
Proof.
  intros w1 w2 K Hseed [Hro Hobs] Et Eq Ev Ets Hq1 Hv1 Hq2 Hv2.
  unfold reset_then_robot_state, bind.
  rewrite (reset_run w1 Hq1 Hv1), (reset_run w2 Hq2 Hv2).
  assert (Hr : same_joints (restored w1) (restored w2)).
  { unfold restored. repeat split; cbn; assumption. }
  destruct (Hseed (task w1) _ _ Hr) as (Eg & Es & Hj). rewrite <- Ets.
  destruct (_sample_goal T (task w1, restored w1)) as [r1 [ts1 d1]].
  destruct (_sample_goal T (task w1, restored w2)) as [r2 [ts2 d2]].
  cbn in Eg, Es, Hj. subst r2 ts2.
  destruct r1 as [g|e]; [|reflexivity]. cbn zeta. cbn [fst snd].
  set (e1 := Nat.iter 9 (mj_forward P) d1).
  set (e2 := Nat.iter 9 (mj_forward P) d2).
  change (Nat.iter 10 (mj_forward P) d1) with (mj_forward P e1).
  change (Nat.iter 10 (mj_forward P) d2) with (mj_forward P e2).
  assert (He : same_joints e1 e2).
  { eapply same_joints_trans; [apply (settle_joints K)|].
    eapply same_joints_trans; [exact Hj|].
    apply same_joints_sym, (settle_joints K). }
  clearbody e1 e2.
  pose proof (Hobs ts1 e1 e2 He) as Eo.
  pose proof (Hro (ts1, mj_forward P e1)) as R1.
  pose proof (Hro (ts1, mj_forward P e2)) as R2.
  destruct (_get_obs T (ts1, mj_forward P e1)) as [o1 [ts1' f1]].
  destruct (_get_obs T (ts1, mj_forward P e2)) as [o2 [ts2' f2]].
  cbn in Eo, R1, R2. subst o2 f1 f2.
  destruct o1 as [o|e]; [|reflexivity].
  unfold robot_state, eef, get, bind, ret. cbn.
  rewrite (forward_sites P K e1 e2 "grasp" He).
  rewrite (joint_lookup P K (mj_forward P e1) (mj_forward P e2)
             "right_outer_knuckle_joint"); [reflexivity|].
  destruct (forward_joints P K e1) as (_ & A & _).
  destruct (forward_joints P K e2) as (_ & B & _).
  destruct He as (_ & C & _). congruence.
Qed.

End Reset.

(** The toy instance after another history: [reset] returns the observation
    of the initial joints. *)
Lemma reset_restores_resamples_and_settles_witness :
  exists obs w', reset Toy.physics Toy.task Toy.world2 = (Ok obs, w').
Proof.
  destruct (reset_restores_resamples_and_settles Toy.physics Toy.task Toy.world2)
    as (_ & _ & _ & H).
  - reflexivity.
  - reflexivity.
  - apply H.
    + intros s. eexists _, _. reflexivity.
    + intros s. eexists _, _. reflexivity.
Defined.

(** The point gripper keeps the contract of a kinematics pass. *)
Lemma toy_kinematic : kinematic Toy.physics.
Proof.
  split.
  - intros d. repeat split.
  - intros d d' name (_ & E & _). cbn. unfold Toy.site. now rewrite E.
  - intros d d' name E. cbn. now rewrite E.
Qed.

(** Two histories of the toy instance, one read after [reset]. *)
Lemma reset_then_robot_state_is_deterministic_witness :
  fst (reset_then_robot_state Toy.physics Toy.task Toy.world1)
    = fst (reset_then_robot_state Toy.physics Toy.task Toy.world2).
Proof.
  apply (reset_then_robot_state_is_deterministic Toy.physics Toy.task
           Toy.world1 Toy.world2).
  - exact toy_kinematic.
  - intros ts d d' H. cbn. auto.
  - split.
    + intros s. reflexivity.
    + intros ts d d' (_ & E & _). cbn. now rewrite E.
  - reflexivity.
  - reflexivity.
  - reflexivity.
  - reflexivity.
  - reflexivity.
  - reflexivity.
  - reflexivity.
  - reflexivity.
Defined.

(** * Further properties of the class *)

Section LimitMore.

Context {Internal TaskState : Type}.

Local Abbreviation world := (world Internal TaskState).

Lemma when_false (body : M world unit) (w : world) : when false body w = (Ok tt, w).
Proof. reflexivity. Qed.

(** X1: while the gripper is inside the workspace on every axis, bounds
    included, [_limit_gripper] reads nothing of the command and writes
    nothing: it returns the view it was given and the world is untouched,
    whatever that view is. *)
Theorem limit_gripper_inside_the_workspace_is_a_no_op :
  forall (w : world) (p : vec3) (v : view) (ca : ndarray) (cx cy : Q),
    heap w !! center_of_table (self w) = Some ca ->
    buf ca !! 0%nat = Some cx ->
    buf ca !! 1%nat = Some cy ->
    cx - 0.105 - 0.3 <= vx p -> vx p <= cx - 0.105 + 0.15 ->
    cy - 0.3 <= vy p -> vy p <= cy + 0.3 ->
    min_z (self w) <= vz p -> vz p <= max_z (self w) ->
    _limit_gripper p v w = (Ok v, w).
Proof.
  intros w p v ca cx cy Hc H0 H1 Hx1 Hx2 Hy1 Hy2 Hz1 Hz2.
  apply PyFacts.ltb_ge in Hx1, Hy1, Hz1.
  apply PyFacts.gtb_le in Hx2, Hy2, Hz2.
  unfold _limit_gripper.
  rewrite (bind_ok _ _ w _ _ (center_ok w ca 0 cx Hc H0)). rewrite Hx2.
  rewrite (bind_ok _ _ w _ _ (when_false _ w)).
  rewrite (bind_ok _ _ w _ _ (center_ok w ca 0 cx Hc H0)). rewrite Hx1.
  rewrite (bind_ok _ _ w _ _ (when_false _ w)).
  rewrite (bind_ok _ _ w _ _ (center_ok w ca 1 cy Hc H1)). rewrite Hy2.
  rewrite (bind_ok _ _ w _ _ (when_false _ w)).
  rewrite (bind_ok _ _ w _ _ (center_ok w ca 1 cy Hc H1)). rewrite Hy1.
  rewrite (bind_ok _ _ w _ _ (when_false _ w)).
  rewrite (bind_ok _ _ w _ _ (attr_ok max_z w)). rewrite Hz2.
  rewrite (bind_ok _ _ w _ _ (when_false _ w)).
  rewrite (bind_ok _ _ w _ _ (attr_ok min_z w)). rewrite Hz1.
  rewrite (bind_ok _ _ w _ _ (when_false _ w)).
  reflexivity.
Qed.

(** X2: whatever the bounds and the position, [_limit_gripper] never
    rescales or reverses a command: each component of the delta it leaves in
    the view is the requested one or zero. *)
Theorem limit_gripper_passes_or_cancels :
  forall (w : world) (p : vec3) (v : view) (ca : ndarray) (cx cy d0 d1 d2 : Q),
    heap w !! center_of_table (self w) = Some ca ->
    buf ca !! 0%nat = Some cx ->
    buf ca !! 1%nat = Some cy ->
    base v <> center_of_table (self w) ->
    view_values v w = (Ok [d0; d1; d2], w) ->
    exists w' e0 e1 e2,
      _limit_gripper p v w = (Ok v, w') /\
      view_values v w' = (Ok [e0; e1; e2], w') /\
      (e0 = d0 \/ e0 = 0) /\ (e1 = d1 \/ e1 = 0) /\ (e2 = d2 \/ e2 = 0).
Proof.
  intros w p v ca cx cy d0 d1 d2 Hc H0 H1 Hne Hv.
  apply view_values_holds in Hv.
  destruct (limit_gripper_run p v w ca cx cy d0 d1 d2 Hc H0 H1 Hne Hv)
    as (w' & Hrun & Hh & _).
  exists w'. do 3 eexists.
  split; [exact Hrun|]. split; [apply view_values_ok; exact Hh|].
  repeat split; apply clamp_seq_cases.
Qed.

Lemma min_max_min d : Py.min (Py.max (Py.min d 0) 0) 0 = Py.max (Py.min d 0) 0.
Proof.
  unfold Py.max at 1 2. destruct (Py.gtb 0 (Py.min d 0)).
  - reflexivity.
  - apply min_0_idem.
Qed.

(** The values a second pass writes are the ones the first pass left. *)
Lemma limit_writes_again c0 c1 hi lo p d0 d1 d2 :
  let '(x1, x2, y1, y2, z1, z2) := limit_writes c0 c1 hi lo p d0 d1 d2 in
  limit_writes c0 c1 hi lo p x2 y2 z2 = (x2, x2, y2, y2, z2, z2).
Proof.
  unfold limit_writes.
  destruct (Py.gtb (vx p) (c0 - 0.105 + 0.15)), (Py.ltb (vx p) (c0 - 0.105 - 0.3)),
           (Py.gtb (vy p) (c1 + 0.3)), (Py.ltb (vy p) (c1 - 0.3)),
           (Py.gtb (vz p) hi), (Py.ltb (vz p) lo);
    rewrite ?min_max_min, ?max_0_idem, ?min_0_idem; reflexivity.
Qed.

(** X3: [_limit_gripper] is idempotent: run again at the same gripper
    position on the view it has just clamped, it returns the same view and
    leaves the world exactly as the first run left it. *)
Theorem limit_gripper_is_idempotent :
  forall (w : world) (p : vec3) (v : view) (ca : ndarray) (cx cy d0 d1 d2 : Q),
    heap w !! center_of_table (self w) = Some ca ->
    buf ca !! 0%nat = Some cx ->
    buf ca !! 1%nat = Some cy ->
    base v <> center_of_table (self w) ->
    view_values v w = (Ok [d0; d1; d2], w) ->
    exists w',
      _limit_gripper p v w = (Ok v, w') /\
      _limit_gripper p v w' = (Ok v, w').
Proof.
  intros w p v ca cx cy d0 d1 d2 Hc H0 H1 Hne Hv.
  apply view_values_holds in Hv.
  pose proof (limit_gripper_writes p v w ca cx cy d0 d1 d2 Hc H0 H1 Hne Hv) as Hrun.
  pose proof (limit_writes_again cx cy (max_z (self w)) (min_z (self w)) p d0 d1 d2) as Hag.
  pose proof (limit_world_holds v
                (limit_writes cx cy (max_z (self w)) (min_z (self w)) p d0 d1 d2)
                w d0 d1 d2 Hv) as Hh.
  destruct (limit_writes cx cy (max_z (self w)) (min_z (self w)) p d0 d1 d2)
    as [[[[[x1 x2] y1] y2] z1] z2] eqn:Ews.
  cbn [fst snd] in Hh.
  set (w' := limit_world v (x1, x2, y1, y2, z1, z2) w) in *.
  assert (Hs : self w' = self w) by reflexivity.
  assert (Hc' : heap w' !! center_of_table (self w') = Some ca).
  { rewrite Hs. unfold w', limit_world.
    rewrite !poke_other by (apply not_eq_sym; exact Hne). exact Hc. }
  assert (Hne' : base v <> center_of_table (self w')) by (now rewrite Hs).
  exists w'. split; [exact Hrun|].
  rewrite (limit_gripper_writes p v w' ca cx cy x2 y2 z2 Hc' H0 H1 Hne' Hh).
  rewrite Hs, Hag. unfold limit_world.
  rewrite (poke_same v _ 0 x2 w' Hh eq_refl).
  rewrite (poke_same v _ 0 x2 w' Hh eq_refl).
  rewrite (poke_same v _ 1 y2 w' Hh eq_refl).
  rewrite (poke_same v _ 1 y2 w' Hh eq_refl).
  rewrite (poke_same v _ 2 z2 w' Hh eq_refl).
  rewrite (poke_same v _ 2 z2 w' Hh eq_refl).
  reflexivity.
Qed.

(** One write through a view leaves the shape of the base array and every
    element outside the first three of the view as they were. *)
Lemma poke_outside v i x (w : world) a :
  (i < 3)%nat ->
  heap w !! base v = Some a ->
  exists a',
    heap (poke v i x w) !! base v = Some a' /\
    shape a' = shape a /\
    length (buf a') = length (buf a) /\
    forall j, (j < off v \/ off v + 3 <= j)%nat -> buf a' !! j = buf a !! j.
Proof.
  intros Hi Ha. cbn. rewrite lookup_alter_eq, Ha. cbn.
  eexists. split; [reflexivity|]. cbn. repeat split.
  - apply length_insert.
  - intros j Hj. apply list_lookup_insert_ne. lia.
Qed.

(** X4: [_limit_gripper] works in place and nowhere else.  The array behind
    the view keeps its shape and every element outside the three of the view
    (in [_apply_action]: the gripper command, fourth in the copy); every
    other array, the attributes of the instance, the simulation buffers, the
    task state and the log are as before. *)
Theorem limit_gripper_writes_only_through_the_view :
  forall (w : world) (p : vec3) (v : view) (a ca : ndarray) (cx cy d0 d1 d2 : Q),
    heap w !! center_of_table (self w) = Some ca ->
    buf ca !! 0%nat = Some cx ->
    buf ca !! 1%nat = Some cy ->
    base v <> center_of_table (self w) ->
    heap w !! base v = Some a ->
    view_values v w = (Ok [d0; d1; d2], w) ->
    exists w' a',
      _limit_gripper p v w = (Ok v, w') /\
      heap w' !! base v = Some a' /\
      shape a' = shape a /\
      length (buf a') = length (buf a) /\
      (forall j, (j < off v \/ off v + 3 <= j)%nat -> buf a' !! j = buf a !! j) /\
      (forall l, l <> base v -> heap w' !! l = heap w !! l) /\
      self w' = self w /\ data w' = data w /\ task w' = task w /\
      trace w' = trace w.
Proof.
  intros w p v a ca cx cy d0 d1 d2 Hc H0 H1 Hne Ha Hv.
  apply view_values_holds in Hv.
  rewrite (limit_gripper_writes p v w ca cx cy d0 d1 d2 Hc H0 H1 Hne Hv).
  destruct (limit_writes cx cy (max_z (self w)) (min_z (self w)) p d0 d1 d2)
    as [[[[[x1 x2] y1] y2] z1] z2].
  unfold limit_world.
  destruct (poke_outside v 0 x1 w a ltac:(lia) Ha) as (a1 & A1 & S1 & L1 & O1).
  destruct (poke_outside v 0 x2 _ a1 ltac:(lia) A1) as (a2 & A2 & S2 & L2 & O2).
  destruct (poke_outside v 1 y1 _ a2 ltac:(lia) A2) as (a3 & A3 & S3 & L3 & O3).
  destruct (poke_outside v 1 y2 _ a3 ltac:(lia) A3) as (a4 & A4 & S4 & L4 & O4).
  destruct (poke_outside v 2 z1 _ a4 ltac:(lia) A4) as (a5 & A5 & S5 & L5 & O5).
  destruct (poke_outside v 2 z2 _ a5 ltac:(lia) A5) as (a6 & A6 & S6 & L6 & O6).
  eexists _, a6. split; [reflexivity|]. split; [exact A6|].
  split; [congruence|]. split; [congruence|].
  split.
  { intros j Hj. rewrite O6, O5, O4, O3, O2, O1 by exact Hj. reflexivity. }
  split.
  { intros l Hl. now rewrite !poke_other by exact Hl. }
  repeat split.
Qed.

End LimitMore.

Lemma limit_gripper_inside_the_workspace_is_a_no_op_witness :
  _limit_gripper (Vec3 1.5 0.3 0.5) (View Toy.action 0 3) Toy.world1
    = (Ok (View Toy.action 0 3), Toy.world1).
Proof.
  apply (limit_gripper_inside_the_workspace_is_a_no_op Toy.world1 (Vec3 1.5 0.3 0.5)
           (View Toy.action 0 3) (array1 [1.655; 0.3; 0.63625]) 1.655 0.3).
  - vm_compute. reflexivity.
  - reflexivity.
  - reflexivity.
  - discriminate.
  - discriminate.
  - discriminate.
  - discriminate.
  - discriminate.
  - discriminate.
Defined.

Lemma limit_gripper_passes_or_cancels_witness :
  exists w' e0 e1 e2,
    _limit_gripper (Vec3 1.8 0.3 0.1) (View Toy.action 0 3) Toy.world1
      = (Ok (View Toy.action 0 3), w') /\
    view_values (View Toy.action 0 3) w' = (Ok [e0; e1; e2], w') /\
    (e0 = 0.5 \/ e0 = 0) /\ (e1 = 0.25 \/ e1 = 0) /\ (e2 = -1 \/ e2 = 0).
Proof.
  apply (limit_gripper_passes_or_cancels Toy.world1 (Vec3 1.8 0.3 0.1)
           (View Toy.action 0 3) (array1 [1.655; 0.3; 0.63625]) 1.655 0.3).
  - vm_compute. reflexivity.
  - reflexivity.
  - reflexivity.
  - vm_compute. discriminate.
  - vm_compute. reflexivity.
Defined.

Lemma limit_gripper_is_idempotent_witness :
  exists w',
    _limit_gripper (Vec3 1.8 0.3 0.1) (View Toy.action 0 3) Toy.world1
      = (Ok (View Toy.action 0 3), w') /\
    _limit_gripper (Vec3 1.8 0.3 0.1) (View Toy.action 0 3) w'
      = (Ok (View Toy.action 0 3), w').
Proof.
  apply (limit_gripper_is_idempotent Toy.world1 (Vec3 1.8 0.3 0.1)
           (View Toy.action 0 3) (array1 [1.655; 0.3; 0.63625]) 1.655 0.3 0.5 0.25 (-1)).
  - vm_compute. reflexivity.
  - reflexivity.
  - reflexivity.
  - vm_compute. discriminate.
  - vm_compute. reflexivity.
Defined.

(** A view onto the caller's own array: the fourth element survives. *)
Lemma limit_gripper_writes_only_through_the_view_witness :
  exists w' a',
    _limit_gripper (Vec3 1.8 0.3 0.1) (View Toy.action 0 3) Toy.world1
      = (Ok (View Toy.action 0 3), w') /\
    heap w' !! Toy.action = Some a' /\
    buf a' !! 3%nat = Some 1.
Proof.
  destruct (limit_gripper_writes_only_through_the_view Toy.world1 (Vec3 1.8 0.3 0.1)
              (View Toy.action 0 3) (NDArray [4%nat] [0.5; 0.25; -1; 1])
              (array1 [1.655; 0.3; 0.63625]) 1.655 0.3 0.5 0.25 (-1))
    as (w' & a' & Hrun & Ha & _ & _ & Hout & _).
  - vm_compute. reflexivity.
  - reflexivity.
  - reflexivity.
  - vm_compute. discriminate.
  - vm_compute. reflexivity.
  - vm_compute. reflexivity.
  - exists w', a'. split; [exact Hrun|]. split; [exact Ha|].
    rewrite (Hout 3%nat); [reflexivity|]. right. cbn. lia.
Defined.

(** ** [step] and [get_obs] *)

Section StepMore.

Context {Internal TaskState : Type}.
Context (P : Physics Internal).

Local Abbreviation world := (world Internal TaskState).
Local Abbreviation Task := (Task Internal TaskState).

Lemma call_hook_run name (h : hook Internal TaskState) (w : world) :
  call_hook name h w
  = (fst (h (task w, data w)),
     log (ev_hook name) (set_sim (snd (h (task w, data w))) w)).
Proof. unfold call_hook. now destruct (h (task w, data w)). Qed.

Lemma bind_call_hook {B} name (h : hook Internal TaskState) (k : pyval -> M world B)
    (w : world) :
  bind (call_hook name h) k w
  = match fst (h (task w, data w)) with
    | Ok v => k v (log (ev_hook name) (set_sim (snd (h (task w, data w))) w))
    | Raise e => (Raise e, log (ev_hook name) (set_sim (snd (h (task w, data w))) w))
    end.
Proof. unfold bind. rewrite call_hook_run. reflexivity. Qed.

(** X8: with hooks that only read (they hand back the state they were
    given), the observation in the tuple [step] returns is the one [get_obs]
    reports right after the call, and the two entries of [info] agree. *)
Theorem step_returns_the_current_observation :
  forall (T : Task) (w : world) (action : loc) (rot : list Q) (a0 a1 a2 a3 : Q)
         (obs reward : pyval) (done : bool) (info : gmap string pyval) (w' : world),
    constructed rot w ->
    heap w !! action = Some (NDArray [4%nat] [a0; a1; a2; a3]) ->
    action_space_contains P (NDArray [4%nat] [a0; a1; a2; a3]) = true ->
    (forall s, snd (_get_obs T s) = s) ->
    (forall s, snd (get_reward T s) = s) ->
    (forall s, snd (is_success T s) = s) ->
    step P T action w = (Ok (obs, reward, done, info), w') ->
    fst (get_obs T w') = Ok obs /\
    info !! "is_success" = info !! "success".
Proof.
  intros T w action rot a0 a1 a2 a3 obs reward done info w' Hc Ha Hin Ro Rr Rs.
  rewrite (step_cases P T w action rot a0 a1 a2 a3 Hc Ha Hin).
  destruct (sim (self w)) as [s|]; [|discriminate].
  match goal with |- step_hooks T ?w0 = _ -> _ => set (w2 := w0) end.
  unfold step_hooks, get_obs.
  rewrite bind_call_hook, Ro. cbn [task data log set_sim fst snd].
  destruct (fst (_get_obs T (task w2, data w2))) as [o1|] eqn:E1; [|discriminate].
  rewrite bind_call_hook, Rr. cbn [task data log set_sim fst snd].
  destruct (fst (get_reward T (task w2, data w2))) as [r1|]; [|discriminate].
  rewrite bind_call_hook, Rs. cbn [task data log set_sim fst snd].
  destruct (fst (is_success T (task w2, data w2))) as [b|] eqn:E3; [|discriminate].
  rewrite bind_call_hook, Rs. cbn [task data log set_sim fst snd]. rewrite E3.
  unfold ret. intros [= <- <- <- <- <-].
  rewrite call_hook_run. cbn [task data log set_sim fst snd]. split; [exact E1|].
  now rewrite lookup_insert_ne, !lookup_insert_eq.
Qed.

End StepMore.

Lemma step_returns_the_current_observation_witness :
  fst (get_obs Toy.task (snd (step Toy.physics Toy.task Toy.action Toy.world1)))
    = Ok (VArray [1.8; 0.3; 0.1; 0]).
Proof.
  apply (step_returns_the_current_observation Toy.physics Toy.task Toy.world1
           Toy.action [0; 1; 0; 0] 0.5 0.25 (-1) 1
           (VArray [1.8; 0.3; 0.1; 0]) (VFloat 0) false
           (<["success" := VBool false]> (<["is_success" := VBool false]> ∅))
           (snd (step Toy.physics Toy.task Toy.action Toy.world1))).
  - exact (init_constructed None Toy.world0).
  - vm_compute. reflexivity.
  - reflexivity.
  - intros s. reflexivity.
  - intros s. reflexivity.
  - intros s. reflexivity.
  - vm_compute. reflexivity.
Defined.

(** ** [_apply_action] on its own *)

Section ApplyMore.

Context {Internal TaskState : Type}.
Context (P : Physics Internal).

Local Abbreviation world := (world Internal TaskState).

(** X11: whether [_apply_action] returns or, on an instance without [sim],
    raises, all it leaves in the store is one new array, its copy of the
    action: the three deltas as the workspace policy limited them (not yet
    scaled) and the gripper command as it came.  No array that was there is
    changed or dropped. *)
Theorem apply_action_leaves_its_clamped_copy :
  forall (w : world) (action : loc) (rot : list Q) (a0 a1 a2 a3 : Q),
    constructed rot w ->
    heap w !! action = Some (NDArray [4%nat] [a0; a1; a2; a3]) ->
    heap (snd (_apply_action P action w)) =
      <[fresh (dom (heap w)) :=
          NDArray [4%nat]
            (workspace_limit 1.655 0.3 (get_site_xpos P (data w) "grasp") [a0; a1; a2]
             ++ [a3])]> (heap w).
Proof.
  intros w action rot a0 a1 a2 a3 Hc Ha.
  rewrite (apply_action_cases P w action rot a0 a1 a2 a3 Hc Ha).
  destruct (sim (self w)); reflexivity.
Qed.

End ApplyMore.

Lemma apply_action_leaves_its_clamped_copy_witness :
  heap (snd (_apply_action Toy.physics Toy.action Built.world1))
    = <[4%positive := NDArray [4%nat] [0; 0.25; 0; 1]]> (heap Built.world1).
Proof.
  apply (apply_action_leaves_its_clamped_copy Toy.physics Built.world1 Toy.action
           [0; 1; 0; 0] 0.5 0.25 (-1) 1).
  - exact (init_constructed None Built.world0).
  - vm_compute. reflexivity.
Defined.

(** ** [reset], [close] and the constructor *)

Section ResetMore.

Context {Internal TaskState : Type}.
Context (P : Physics Internal).

Local Abbreviation world := (world Internal TaskState).
Local Abbreviation Task := (Task Internal TaskState).

(** X12: [Base] itself cannot be reset.  [reset] raises
    [NotImplementedError] out of [_sample_goal], and by then it has
    overwritten time, joint positions and joint velocities with the initial
    ones; no kinematics pass was run and no observation taken. *)
Theorem reset_on_base_raises_after_restoring :
  forall (o : hook Internal TaskState) (w : world),
    length (initial_qpos (self w)) = length (qpos (data w)) ->
    length (initial_qvel (self w)) = length (qvel (data w)) ->
    reset P (BaseTask o) w =
      (Raise NotImplementedError,
       mkWorld (heap w) (self w) (restored w) (task w) (offwidth w) (offheight w)
               (trace w ++ [ev_hook "_sample_goal"])).
Proof.
  intros o w Hq Hv. rewrite (reset_run P (BaseTask o) w Hq Hv). reflexivity.
Qed.

Lemma assign_all_mismatch (dst src : list Q) :
  length src <> length dst -> length src <> 1%nat ->
  assign_all dst src = Raise ValueError.
Proof.
  intros H1 H2. unfold assign_all.
  apply Nat.eqb_neq in H1. rewrite H1.
  destruct src as [|x [|y src]]; try reflexivity. now elim H2.
Qed.

(** X13: when [initial_qpos] has neither the length of [data.qpos] nor
    length one, the slice assignment of [_reset_sim] cannot broadcast:
    [reset] raises [ValueError] with the time already set back, the joint
    buffers as they were, and the goal hook never called. *)
Theorem reset_raises_on_a_joint_count_mismatch :
  forall (T : Task) (w : world),
    length (initial_qpos (self w)) <> length (qpos (data w)) ->
    length (initial_qpos (self w)) <> 1%nat ->
    reset P T w = (Raise ValueError, set_data (with_time (initial_time (self w))) w).
Proof.
  intros T w H1 H2. unfold reset, _reset_sim, bind, attr, get, modify, lift. cbn.
  now rewrite (assign_all_mismatch _ _ H1 H2).
Qed.

(** X14: with an observation hook that only reads, the observation [reset]
    returns is the one [get_obs] reports right after it. *)
Theorem reset_returns_the_current_observation :
  forall (T : Task) (w : world) (obs : pyval) (w' : world),
    length (initial_qpos (self w)) = length (qpos (data w)) ->
    length (initial_qvel (self w)) = length (qvel (data w)) ->
    (forall s, snd (_get_obs T s) = s) ->
    reset P T w = (Ok obs, w') ->
    fst (get_obs T w') = Ok obs.
Proof.
  intros T w obs w' Hq Hv Ro. rewrite (reset_run P T w Hq Hv).
  destruct (_sample_goal T (task w, restored w)) as [[g|e] s1]; [|discriminate].
  cbn zeta. rewrite Ro. cbn [fst snd]. intros [= E <-].
  unfold get_obs. rewrite call_hook_run. cbn [task data fst]. exact E.
Qed.

End ResetMore.

Section CloseMore.

Context {Internal TaskState : Type}.

Local Abbreviation world := (world Internal TaskState).

(** X15: however often [close] is called in a row, the world is the one
    the first call left, and the window of the viewer is destroyed once if
    there was a viewer and never if there was none (the attribute missing or
    holding no viewer). *)
Theorem close_destroys_the_window_at_most_once :
  forall (w : world) (n : nat),
    let closed := Nat.iter (S n) (fun w => snd (close w)) w in
    closed = snd (close w) /\
    trace closed =
      trace w ++ match viewer (self w) with
                 | Some (Some v) => [ev_print "Closing window glfw";
                                     ev_glfw_destroy_window (window v)]
                 | _ => []
                 end.
Proof.
  intros w n closed. subst closed.
  assert (Hone : trace (snd (close w)) =
                 trace w ++ match viewer (self w) with
                            | Some (Some v) => [ev_print "Closing window glfw";
                                                ev_glfw_destroy_window (window v)]
                            | _ => []
                            end).
  { rewrite close_run. destruct (viewer (self w)) as [[v|]|]; cbn.
    - now rewrite <- app_assoc.
    - now rewrite app_nil_r.
    - now rewrite app_nil_r. }
  assert (Hagain : snd (close (snd (close w))) = snd (close w)).
  { rewrite !close_run. destruct (viewer (self w)) as [[v|]|] eqn:Ev; cbn.
    - reflexivity.
    - now rewrite Ev.
    - now rewrite Ev. }
  assert (Hiter : Nat.iter (S n) (fun w => snd (close w)) w = snd (close w)).
  { induction n as [|n IH]; [reflexivity|].
    change (Nat.iter (S (S n)) ?f ?x) with (f (Nat.iter (S n) f x)).
    now rewrite IH. }
  split; [exact Hiter | now rewrite Hiter].
Qed.

End CloseMore.

Lemma reset_on_base_raises_after_restoring_witness :
  exists w',
    reset Toy.physics (BaseTask (_get_obs Toy.task)) Toy.world2
      = (Raise NotImplementedError, w') /\
    qpos (data w') = [1.5; 0.3; 0.5; 0].
Proof.
  eexists. split.
  - apply (reset_on_base_raises_after_restoring Toy.physics (_get_obs Toy.task)
             Toy.world2); reflexivity.
  - reflexivity.
Defined.

Lemma reset_raises_on_a_joint_count_mismatch_witness :
  fst (reset Toy.physics Toy.task ToySetup.long_world) = Raise ValueError.
Proof.
  rewrite (reset_raises_on_a_joint_count_mismatch Toy.physics Toy.task
             ToySetup.long_world).
  - reflexivity.
  - vm_compute. discriminate.
  - vm_compute. discriminate.
Defined.

Lemma reset_returns_the_current_observation_witness :
  fst (get_obs Toy.task (snd (reset Toy.physics Toy.task Toy.world2)))
    = Ok (VArray [1.5; 0.3; 0.5; 0]).
Proof.
  apply (reset_returns_the_current_observation Toy.physics Toy.task Toy.world2
           (VArray [1.5; 0.3; 0.5; 0]) (snd (reset Toy.physics Toy.task Toy.world2))).
  - reflexivity.
  - reflexivity.
  - intros s. reflexivity.
  - vm_compute. reflexivity.
Defined.

(** ** The set-up methods *)

Section SetupMore.

Context {Internal TaskState : Type}.
Context (P : Physics Internal) (U : Utils Internal).

Local Abbreviation world := (world Internal TaskState).
Local Abbreviation Task := (Task Internal TaskState).

Lemma qpos_setitem_ok (w : world) i x :
  (i < length (qpos (data w)))%nat ->
  qpos_setitem i x w = (Ok tt, set_data (with_qpos (<[i := x]> (qpos (data w)))) w).
Proof.
  intros Hi. unfold qpos_setitem, bind, get. apply Nat.ltb_lt in Hi. now rewrite Hi.
Qed.

Lemma qpos_setitem_out (w : world) i x :
  (length (qpos (data w)) <= i)%nat ->
  qpos_setitem i x w = (Raise IndexError, w).
Proof.
  intros Hi. unfold qpos_setitem, bind, get. apply Nat.ltb_ge in Hi. now rewrite Hi.
Qed.

Lemma bind_raised {A B} (m : M world A) (k : A -> M world B) (w w' : world) e :
  m w = (Raise e, w') -> bind m k w = (Raise e, w').
Proof. intros E. unfold bind. now rewrite E. Qed.

(** The three helper calls that open [_set_gripper]. *)
Lemma set_gripper_helpers {A} (k : M world A) (w : world) gp gr :
  (modify (set_data (fun d => set_mocap_pos U d "robot0:mocap" gp)) ;;;
   modify (set_data (fun d => set_mocap_quat U d "robot0:mocap" gr)) ;;;
   modify (set_data (fun d => set_joint_qpos U d "right_outer_knuckle_joint" 0)) ;;;
   k) w
  = k (set_data (fun d => gripper_set U d gp gr) w).
Proof. reflexivity. Qed.

(** X17: on a model with at least thirteen joint coordinates
    [_set_gripper] returns, and besides what the three helpers did to the
    buffers, coordinates 10 and 12 of [qpos] are zero and every other
    coordinate, the time and the velocities are as the helpers left them;
    the store, the instance and the log are not touched. *)
Theorem set_gripper_zeroes_two_joint_coordinates :
  forall (w : world) (gripper_pos gripper_rotation : list Q),
    let d := gripper_set U (data w) gripper_pos gripper_rotation in
    (13 <= length (qpos d))%nat ->
    exists w',
      _set_gripper U gripper_pos gripper_rotation w = (Ok tt, w') /\
      qpos (data w') !! 10%nat = Some 0 /\
      qpos (data w') !! 12%nat = Some 0 /\
      (forall j, j <> 10%nat -> j <> 12%nat -> qpos (data w') !! j = qpos d !! j) /\
      length (qpos (data w')) = length (qpos d) /\
      time (data w') = time d /\ qvel (data w') = qvel d /\
      internal (data w') = internal d /\
      heap w' = heap w /\ self w' = self w /\ task w' = task w /\
      trace w' = trace w.
Proof.
  intros w gp gr d Hlen. unfold _set_gripper.
  rewrite set_gripper_helpers. fold d.
  set (w1 := set_data (fun _ => d) w).
  assert (H10 : (10 < length (qpos (data w1)))%nat) by (cbn; lia).
  rewrite (bind_ok _ _ w1 _ _ (qpos_setitem_ok w1 10 0 H10)).
  set (w2 := set_data _ w1).
  assert (H12 : (12 < length (qpos (data w2)))%nat).
  { cbn. rewrite length_insert. lia. }
  rewrite (qpos_setitem_ok w2 12 0 H12).
  eexists. split; [reflexivity|]. cbn.
  split; [rewrite list_lookup_insert_ne by lia; apply list_lookup_insert_eq; lia|].
  split; [apply list_lookup_insert_eq; rewrite length_insert; lia|].
  split.
  { intros j J10 J12. now rewrite !list_lookup_insert_ne by congruence. }
  split; [now rewrite !length_insert|]. repeat split.
Qed.

(** X18: on a model with fewer than thirteen joint coordinates
    [_set_gripper] raises [IndexError], and not before the helpers have moved
    the mocap target and the gripper joint: with at most ten coordinates the
    buffers are as the helpers left them, with eleven or twelve coordinate 10
    is zeroed as well. *)
Theorem set_gripper_needs_thirteen_joint_coordinates :
  forall (w : world) (gripper_pos gripper_rotation : list Q),
    let d := gripper_set U (data w) gripper_pos gripper_rotation in
    (length (qpos d) < 13)%nat ->
    let out := _set_gripper U gripper_pos gripper_rotation w in
    fst out = Raise IndexError /\
    ((length (qpos d) <= 10)%nat -> data (snd out) = d) /\
    ((10 < length (qpos d))%nat ->
     data (snd out) = with_qpos (<[10%nat := 0]> (qpos d)) d).
Proof.
  intros w gp gr d Hlen out. subst out. unfold _set_gripper.
  rewrite set_gripper_helpers. fold d.
  set (w1 := set_data (fun _ => d) w).
  destruct (le_lt_dec (length (qpos d)) 10) as [Hs|Hs].
  - assert (H10 : (length (qpos (data w1)) <= 10)%nat) by exact Hs.
    rewrite (bind_raised _ _ w1 _ _ (qpos_setitem_out w1 10 0 H10)).
    split; [reflexivity|]. split; [reflexivity | lia].
  - assert (H10 : (10 < length (qpos (data w1)))%nat) by exact Hs.
    rewrite (bind_ok _ _ w1 _ _ (qpos_setitem_ok w1 10 0 H10)).
    set (w2 := set_data _ w1).
    assert (H12 : (length (qpos (data w2)) <= 12)%nat).
    { cbn. rewrite length_insert. lia. }
    rewrite (qpos_setitem_out w2 12 0 H12).
    split; [reflexivity|]. split; [lia | reflexivity].
Qed.


(** The first item of a dict stops [_env_setup] where the data object has
    no [set_joint_qpos]. *)
Lemma for_items_missing (items : list (string * Q)) name value (w : world) :
  data_set_joint_qpos U = None ->
  for_items ((name, value) :: items) (call_data_set_joint_qpos U) w
  = (Raise AttributeError, w).
Proof.
  intros Hm. cbn [for_items]. unfold call_data_set_joint_qpos. now rewrite Hm.
Qed.

(** [_env_setup] on an empty dict, spelled out over what the goal hook
    does. *)
Lemma env_setup_run (T : Task) (w : world) :
  let d0 := mj_forward P (mocap_reset U (data w)) in
  _env_setup P U T [] w =
    match _sample_goal T (task w, d0) with
    | (Ok _, s1) =>
        (Ok tt,
         mkWorld (heap w) (self w) (mj_forward P (snd s1)) (fst s1)
                 (offwidth w) (offheight w)
                 (trace w ++ [ev_mj_forward; ev_hook "_sample_goal"; ev_mj_forward]))
    | (Raise e, s1) =>
        (Raise e,
         mkWorld (heap w) (self w) (snd s1) (fst s1) (offwidth w) (offheight w)
                 (trace w ++ [ev_mj_forward; ev_hook "_sample_goal"]))
    end.
Proof.
  intros d0. unfold _env_setup.
  unfold bind, modify, call_mj_forward, call_hook. cbn. fold d0.
  destruct (_sample_goal T (task w, d0)) as [[g|e] s1]; cbn;
    unfold modify, log, set_sim, set_data; cbn; now rewrite <- !app_assoc.
Qed.

(** X19: where the data object has no method [set_joint_qpos] (the data
    class of the engine this file is being ported to has none), [_env_setup]
    raises [AttributeError] at the first joint of a non-empty
    [initial_qpos], before anything else: no joint is set, the mocap welds
    are not reset, no kinematics pass is run, the goal hook is not called. *)
Theorem env_setup_cannot_set_a_joint :
  forall (T : Task) (name : string) (value : Q) (items : list (string * Q)) (w : world),
    data_set_joint_qpos U = None ->
    _env_setup P U T ((name, value) :: items) w = (Raise AttributeError, w).
Proof.
  intros T name value items w Hm. unfold _env_setup.
  now rewrite (bind_raised _ _ w w _ (for_items_missing items name value w Hm)).
Qed.

(** X20: with the empty dict (the one the constructor passes) [_env_setup]
    resets the mocap welds, runs one kinematics pass, samples the goal in
    that state and runs a second pass on what the hook left.  It returns when
    the hook returns and fails only through the hook; on [Base] itself it
    always raises [NotImplementedError], after the first pass and before the
    second. *)
Theorem env_setup_fails_only_through_the_goal_hook :
  forall (T : Task) (o : hook Internal TaskState) (w : world),
    let d0 := mj_forward P (mocap_reset U (data w)) in
    (forall g s1,
        _sample_goal T (task w, d0) = (Ok g, s1) ->
        _env_setup P U T [] w =
          (Ok tt,
           mkWorld (heap w) (self w) (mj_forward P (snd s1)) (fst s1)
                   (offwidth w) (offheight w)
                   (trace w ++ [ev_mj_forward; ev_hook "_sample_goal"; ev_mj_forward]))) /\
    (forall e, fst (_env_setup P U T [] w) = Raise e ->
               fst (_sample_goal T (task w, d0)) = Raise e) /\
    _env_setup P U (BaseTask o) [] w =
      (Raise NotImplementedError,
       mkWorld (heap w) (self w) d0 (task w) (offwidth w) (offheight w)
               (trace w ++ [ev_mj_forward; ev_hook "_sample_goal"])).
Proof.
  intros T o w d0. split; [|split].
  - intros g s1 E. rewrite env_setup_run. fold d0. now rewrite E.
  - intros e. rewrite env_setup_run. fold d0.
    destruct (_sample_goal T (task w, d0)) as [[g|e'] s1]; cbn; intros H;
      [discriminate H | now injection H as ->].
  - rewrite env_setup_run. reflexivity.
Qed.

End SetupMore.

Lemma set_gripper_zeroes_two_joint_coordinates_witness :
  exists w',
    _set_gripper ToySetup.utils [1; 1; 1] [0; 1; 0; 0] ToySetup.long_world = (Ok tt, w') /\
    qpos (data w') = [1; 2; 3; 0; 5; 6; 7; 8; 9; 10; 0; 12; 0; 14].
Proof.
  destruct (set_gripper_zeroes_two_joint_coordinates ToySetup.utils ToySetup.long_world
              [1; 1; 1] [0; 1; 0; 0])
    as (w' & Hrun & _).
  - vm_compute. lia.
  - exists w'. split; [exact Hrun|].
    vm_compute in Hrun. injection Hrun as <-. reflexivity.
Defined.

(** The point gripper has four joint coordinates. *)
Lemma set_gripper_needs_thirteen_joint_coordinates_witness :
  fst (_set_gripper ToySetup.utils [1; 1; 1] [0; 1; 0; 0] Toy.world1) = Raise IndexError /\
  internal (data (snd (_set_gripper ToySetup.utils [1; 1; 1] [0; 1; 0; 0] Toy.world1)))
    = [1; 1; 1; 0; 1; 0; 0].
Proof.
  destruct (set_gripper_needs_thirteen_joint_coordinates ToySetup.utils Toy.world1
              [1; 1; 1] [0; 1; 0; 0])
    as (Hraise & Hshort & _).
  - vm_compute. lia.
  - split; [exact Hraise|]. rewrite Hshort; [reflexivity|]. vm_compute. lia.
Defined.

Lemma env_setup_cannot_set_a_joint_witness :
  _env_setup Toy.physics ToySetup.utils Toy.task
             [("right_outer_knuckle_joint", 0.5)] Built.world1
    = (Raise AttributeError, Built.world1).
Proof.
  apply (env_setup_cannot_set_a_joint Toy.physics ToySetup.utils Toy.task
           "right_outer_knuckle_joint" 0.5 [] Built.world1).
  reflexivity.
Defined.
